(** * glusto-tests: DHT layout validation library (glustolibs.gluster)

    A shallow embedding of [brickdir.py], [glusterfile.py], [glusterdir.py],
    [exceptions.py] and [dht_test_utils.py], and the properties of the
    hash-range decoding, the per-brick range cache, the placement
    resolution and the directory traversal that follow from the code.

    Conventions.
    - Python [str] is [string]; slicing is done on the list of characters.
    - Python integers are [Z].
    - [g.run], [os.walk], [re.findall] and [gf_dm_hashfn] are collaborators
      outside the library; they are fields of the record [Glusto].
    - Remote commands are recorded in the state, most recent first, and the
      answer of the collaborator may depend on how many commands were
      issued before: the remote side can change between two commands.
    - A Python exception is the [Raise] result.  No function of these
      modules catches an exception raised by another one, so the fields an
      object had when a method raised are not observable and are not
      returned.
    - Calls to [g.log] are left out: they read cached attributes only and
      never change the control flow.  Opening a connection
      ([g.rpyc_get_connection], [g.get_connection]) is left out as well:
      what is done through the connection is a field of [Glusto]. *)

From Stdlib Require Import ZArith String Ascii List Bool Lia.
From stdpp Require Import base option list strings gmap.
Import ListNotations.
Local Open Scope Z_scope.

(** ** Python string primitives used by the library *)

Module Py.

Definition chars (s : string) : list ascii := list_ascii_of_string s.
Definition str (l : list ascii) : string := string_of_list_ascii l.

(** Whitespace removed by [str.strip()] (Python 2 byte strings). *)
Definition is_space (c : ascii) : bool :=
  let n := nat_of_ascii c in
  (n =? 32)%nat || ((9 <=? n)%nat && (n <=? 13)%nat).

Fixpoint lstrip_chars (l : list ascii) : list ascii :=
  match l with
  | [] => []
  | c :: r => if is_space c then lstrip_chars r else l
  end.

Definition strip_chars (l : list ascii) : list ascii :=
  rev (lstrip_chars (rev (lstrip_chars l))).

(** [s.strip()] *)
Definition strip (s : string) : string := str (strip_chars (chars s)).

(** [s[-n:]], for [n > 0] *)
Definition last_chars (n : nat) (l : list ascii) : list ascii :=
  drop (length l - n)%nat l.

(** [s[0:n]] *)
Definition first_chars (n : nat) (l : list ascii) : list ascii := take n l.

Definition hex_digit (c : ascii) : option Z :=
  let n := Z.of_nat (nat_of_ascii c) in
  if (48 <=? n) && (n <=? 57) then Some (n - 48)
  else if (97 <=? n) && (n <=? 102) then Some (n - 87)
  else if (65 <=? n) && (n <=? 70) then Some (n - 55)
  else None.

Definition is_hex (c : ascii) : bool :=
  match hex_digit c with Some _ => true | None => false end.

Fixpoint hex_digits (acc : Z) (l : list ascii) : option Z :=
  match l with
  | [] => Some acc
  | c :: r =>
      match hex_digit c with
      | Some d => hex_digits (16 * acc + d) r
      | None => None
      end
  end.

(** The value of a string of hex digits, most significant first. *)
Fixpoint hex_value (acc : Z) (l : list ascii) : Z :=
  match l with
  | [] => acc
  | c :: r => hex_value (16 * acc + default 0 (hex_digit c)) r
  end.

(** [int(s, 16)]: surrounding whitespace, an optional sign and an
    optional [0x] prefix are accepted, then at least one hex digit and
    nothing else; [None] stands for the [ValueError]. *)
Definition int16 (s : list ascii) : option Z :=
  let l := strip_chars s in
  let '(sign, l) :=
    match l with
    | c :: r =>
        if Ascii.eqb c "-" then (-1, r)
        else if Ascii.eqb c "+" then (1, r)
        else (1, l)
    | [] => (1, l)
    end in
  let l :=
    match l with
    | c1 :: c2 :: r =>
        if Ascii.eqb c1 "0" && (Ascii.eqb c2 "x" || Ascii.eqb c2 "X")
        then r else l
    | _ => l
    end in
  match l with
  | [] => None
  | _ => Z.mul sign <$> hex_digits 0 l
  end.

(** [s.split(sep)] for a one-character separator. *)
Fixpoint split_chars (sep : ascii) (cur : list ascii) (l : list ascii)
  : list (list ascii) :=
  match l with
  | [] => [rev cur]
  | c :: r =>
      if Ascii.eqb c sep then rev cur :: split_chars sep [] r
      else split_chars sep (c :: cur) r
  end.

Definition split (sep : ascii) (s : string) : list string :=
  str <$> split_chars sep [] (chars s).

(** [os.path] (posixpath): the text before and after the last slash. *)
Fixpoint span_no_slash (l : list ascii) : list ascii * list ascii :=
  match l with
  | [] => ([], [])
  | c :: r =>
      if Ascii.eqb c "/" then ([], l)
      else let '(a, b) := span_no_slash r in (c :: a, b)
  end.

Fixpoint lstrip_slash (l : list ascii) : list ascii :=
  match l with
  | [] => []
  | c :: r => if Ascii.eqb c "/" then lstrip_slash r else l
  end.

(** [os.path.basename(p)] *)
Definition basename (p : string) : string :=
  str (rev (fst (span_no_slash (rev (chars p))))).

(** [os.path.dirname(p)] *)
Definition dirname (p : string) : string :=
  let head := snd (span_no_slash (rev (chars p))) in
  match lstrip_slash head with
  | [] => str (rev head)
  | stripped => str (rev stripped)
  end.

(** [os.path.join(a, b)] *)
Definition join (a b : string) : string :=
  match chars b with
  | "/"%char :: _ => b
  | _ =>
      match rev (chars a) with
      | [] => b
      | "/"%char :: _ => a +:+ b
      | _ => a +:+ "/" +:+ b
      end
  end.

(** [sep.join(parts)] *)
Fixpoint join_chars (sep : list ascii) (parts : list (list ascii))
  : list ascii :=
  match parts with
  | [] => []
  | p :: rest =>
      match rest with
      | [] => p
      | _ :: _ => p ++ sep ++ join_chars sep rest
      end
  end.

Definition str_join (sep : string) (parts : list string) : string :=
  str (join_chars (chars sep) (chars <$> parts)).

End Py.

(** ** Exceptions ([exceptions.py] and the built-in ones that occur) *)

Inductive exn : Type :=
| TypeError
| ValueError
| LayoutIsNotCompleteException (msg : string)
| LayoutIsNotBalancedException (msg : string)
| FileDoesNotExistOnHashedBricks (msg : string).

(** [GlusterException.msg]: the one attribute an exception of the library
    carries. *)
Definition exn_msg (e : exn) : option string :=
  match e with
  | TypeError | ValueError => None
  | LayoutIsNotCompleteException m
  | LayoutIsNotBalancedException m
  | FileDoesNotExistOnHashedBricks m => Some m
  end.

(** ** The state threaded through the library *)

(** Instrumentation: construction of a [Layout] for a parent directory and
    entry into [run_layout_tests]. *)
Inductive event : Type :=
| EvLayout (parent_dir : string)
| EvLayoutTests (fqpath : string).

Global Instance event_eq_dec : EqDecision event.
Proof. solve_decision. Defined.

Record State : Type := mkState {
  runs : list (string * string);  (* (host, command), most recent first *)
  trace : list event              (* most recent first *)
}.

Inductive res (A : Type) : Type :=
| Ok (a : A)
| Raise (e : exn).
Arguments Ok {A} a.
Arguments Raise {A} e.

Definition M (A : Type) : Type := State -> res A * State.

Definition ret {A} (a : A) : M A := fun s => (Ok a, s).
Definition raise {A} (e : exn) : M A := fun s => (Raise e, s).
Definition bind {A B} (m : M A) (f : A -> M B) : M B :=
  fun s =>
    match m s with
    | (Ok a, s') => f a s'
    | (Raise e, s') => (Raise e, s')
    end.

Declare Scope py_scope.
Delimit Scope py_scope with py.
Notation "x <- m ; k" := (bind m (fun x => k))
  (at level 20, m at level 100, k at level 200, only parsing) : py_scope.
Notation "' p <- m ; k" := (bind m (fun x => let 'p := x in k))
  (at level 20, p pattern, m at level 100, k at level 200, only parsing)
  : py_scope.
Local Open Scope py_scope.

Definition emit (e : event) : M unit :=
  fun s => (Ok tt, {| runs := runs s; trace := e :: trace s |}).

(** [for x in xs: acc = body(acc, x)] *)
Fixpoint for_each {A B} (body : B -> A -> M B) (xs : list A) (acc : B) : M B :=
  match xs with
  | [] => ret acc
  | x :: r => acc' <- body acc x ; for_each body r acc'
  end.

(** The collaborators outside the library. *)
Record Glusto : Type := {
  (** [g.run(host, command)]: return code and standard output of the
      [n]-th command, [n] counting the commands issued before it. *)
  g_run : nat -> string -> string -> Z * string;
  (** [libglusterfs.gf_dm_hashfn(name, len(name))], a C [int]. *)
  gf_dm_hashfn : string -> Z;
  (** [conn.modules.os.walk(rootdir)] on [host]. *)
  os_walk : string -> string -> list (string * list string * list string);
  (** [re.findall(".*?POSIX.*?:(\S+)\>", raw)]. *)
  re_findall_brickdir_paths : string -> list string
}.

Definition run (G : Glusto) (host command : string) : M (Z * string) :=
  fun s =>
    (Ok (g_run G (length (runs s)) host command),
     {| runs := (host, command) :: runs s; trace := trace s |}).

(** [(a, b) = xs]: unpacking into two names. *)
Definition unpack2 (xs : list string) : M (string * string) :=
  match xs with
  | [a; b] => ret (a, b)
  | _ => raise ValueError
  end.

(** [int(s, 16)] *)
Definition int16 (l : list ascii) : M Z :=
  match Py.int16 l with
  | Some v => ret v
  | None => raise ValueError
  end.

(** An attribute that has to be a number where it is used. *)
Definition int_of (o : option Z) : M Z :=
  match o with
  | Some v => ret v
  | None => raise TypeError
  end.

(** ** brickdir.py *)

Module brickdir.

Definition hashrange_command (fqpath : string) : string :=
  "getfattr -n trusted.glusterfs.dht -e hex " +:+ fqpath +:+
  " 2> /dev/null | grep -i trusted.glusterfs.dht | cut -d= -f2".

(** The decoding of lines 46-51: low and high from the trailing 16
    characters. *)
Definition decode_hashrange (full_hash_hex : string) : M (Z * Z) :=
  let trailing_hash_hex := Py.last_chars 16 (Py.chars full_hash_hex) in
  hash_range_low <- int16 (Py.first_chars 8 trailing_hash_hex) ;
  hash_range_high <- int16 (Py.last_chars 8 trailing_hash_hex) ;
  ret (hash_range_low, hash_range_high).

Definition get_hashrange (G : Glusto) (brickdir_path : string)
  : M (option (Z * Z)) :=
  '(host, fqpath) <- unpack2 (Py.split ":" brickdir_path) ;
  '(rcode, rout) <- run G host (hashrange_command fqpath) ;
  let full_hash_hex := Py.strip rout in
  if rcode =? 0 then
    r <- decode_hashrange full_hash_hex ; ret (Some r)
  else ret None.

Definition file_exists (G : Glusto) (host filename : string) : M bool :=
  '(rcode, _) <- run G host ("ls -ld " +:+ filename) ;
  ret (rcode =? 0).

Record BrickDir : Type := mkBrickDir {
  _path : string;
  _host : string;
  _fqpath : string;
  _hashrange : option (Z * Z);
  _hashrange_low : option Z;
  _hashrange_high : option Z
}.

(** [BrickDir(path)] *)
Definition __init__ (path : string) : M BrickDir :=
  '(host, fqpath) <- unpack2 (Py.split ":" path) ;
  ret {| _path := path; _host := host; _fqpath := fqpath;
         _hashrange := None; _hashrange_low := None;
         _hashrange_high := None |}.

(** [self._hashrange[0]] on [None] is a [TypeError]. *)
Definition _get_hashrange (G : Glusto) (self : BrickDir) : M BrickDir :=
  r <- get_hashrange G (_path self) ;
  match r with
  | None => raise TypeError
  | Some (low, high) =>
      ret {| _path := _path self; _host := _host self;
             _fqpath := _fqpath self;
             _hashrange := Some (low, high);
             _hashrange_low := Some low;
             _hashrange_high := Some high |}
  end.

Definition path (self : BrickDir) : string := _path self.
Definition host (self : BrickDir) : string := _host self.
Definition fqpath (self : BrickDir) : string := _fqpath self.

Definition hashrange (G : Glusto) (self : BrickDir)
  : M (BrickDir * (option Z * option Z)) :=
  self <- (match _hashrange self with
           | None => _get_hashrange G self
           | Some _ => ret self
           end) ;
  ret (self, (_hashrange_low self, _hashrange_high self)).

(** [self.hashrange is None] is false whenever the property returns: it
    returns a tuple. *)
Definition hashrange_low (G : Glusto) (self : BrickDir)
  : M (BrickDir * option Z) :=
  '(self, _) <- hashrange G self ;
  self <- (match _hashrange_low self with
           | None => _get_hashrange G self
           | Some _ => ret self
           end) ;
  ret (self, _hashrange_low self).

Definition hashrange_high (G : Glusto) (self : BrickDir)
  : M (BrickDir * option Z) :=
  '(self, _) <- hashrange G self ;
  self <- (match _hashrange_high self with
           | None => _get_hashrange G self
           | Some _ => ret self
           end) ;
  ret (self, _hashrange_high self).

(** [hashrange_contains_hash]: the chained comparison reads the high
    bound only when [low <= filehash] holds. *)
Definition hashrange_contains_hash (G : Glusto) (self : BrickDir)
    (filehash : Z) : M (BrickDir * bool) :=
  self <- (match _hashrange self with
           | None => _get_hashrange G self
           | Some _ => ret self
           end) ;
  low <- int_of (_hashrange_low self) ;
  if low <=? filehash then
    high <- int_of (_hashrange_high self) ;
    ret (self, filehash <=? high)
  else ret (self, false).

Definition has_zero_hashrange (G : Glusto) (self : BrickDir)
  : M (BrickDir * bool) :=
  '(self, low) <- hashrange_low G self ;
  if bool_decide (low = Some 0) then
    '(self, high) <- hashrange_high G self ;
    ret (self, bool_decide (high = Some 0))
  else ret (self, false).

Definition resync_hashrange (G : Glusto) (self : BrickDir) : M BrickDir :=
  _get_hashrange G
    {| _path := _path self; _host := _host self; _fqpath := _fqpath self;
       _hashrange := None; _hashrange_low := None;
       _hashrange_high := None |}.

End brickdir.

(** ** layout.py and constants.py *)

Module layout.

(** Modelled from the spec: the class [Layout] of layout.py, which is not
    part of the source tree.  A layout owns the snapshot list of the
    brick directories of one parent directory and exposes the derived
    booleans [is_complete] and [is_balanced] and the fault lists (holes:
    gaps in the coverage, overlaps: pairs of overlapping ranges). *)
Record Layout : Type := mkLayout {
  brickdirs : list brickdir.BrickDir;
  is_complete : bool;
  is_balanced : bool;
  holes : list (Z * Z);
  overlaps : list ((Z * Z) * (Z * Z))
}.

Definition set_brickdirs (l : Layout) (bs : list brickdir.BrickDir)
  : Layout :=
  {| brickdirs := bs; is_complete := is_complete l;
     is_balanced := is_balanced l; holes := holes l;
     overlaps := overlaps l |}.

End layout.

Module constants.

(** The bit masks of constants.py, which is not part of the source tree:
    they are parameters of the development. *)
Record Constants : Type := {
  FILETYPE_DIR : Z;
  FILETYPE_FILE : Z;
  FILETYPE_ALL : Z;
  TEST_LAYOUT_IS_COMPLETE : Z;
  TEST_LAYOUT_IS_BALANCED : Z;
  TEST_FILE_EXISTS_ON_HASHED_BRICKS : Z;
  TEST_ALL : Z
}.

End constants.

(** [get_pathinfo] returns a dictionary with the keys [raw] and
    [brickdir_paths]. *)
Record Pathinfo : Type := mkPathinfo {
  raw : string;
  brickdir_paths : list string
}.

(** Everything the library is run against: the collaborators, the
    constructor [Layout(pathinfo)] and the constants.  The constructor
    belongs to layout.py: it may issue remote commands and may raise, so
    it works on the log of commands. *)
Record Env : Type := {
  glusto :> Glusto;
  Layout_new :
    Pathinfo -> list (string * string) ->
    res layout.Layout * list (string * string);
  k : constants.Constants
}.

(** [if x:] on an integer. *)
Definition truthy (z : Z) : bool := negb (z =? 0).

(** [Layout(pathinfo)], for the pathinfo of [parent_dir]; the event records
    that the object was constructed. *)
Definition Layout (E : Env) (parent_dir : string) (pathinfo : Pathinfo)
  : M layout.Layout :=
  layout <- (fun s =>
               let '(r, runs') := Layout_new E pathinfo (runs s) in
               (r, {| runs := runs'; trace := trace s |})) ;
  _ <- emit (EvLayout parent_dir) ;
  ret layout.

(** ** glusterfile.py *)

Module glusterfile.

(** [calculate_hash(host, filename)]: the library hash as a [c_uint32]. *)
Definition calculate_hash (G : Glusto) (host filename : string) : Z :=
  gf_dm_hashfn G filename mod 2 ^ 32.

Definition get_fattr (G : Glusto) (host fqpath fattr : string)
  : M (option string) :=
  let command :=
    "getfattr --absolute-names --only-values -n '" +:+ fattr +:+ "' "
    +:+ fqpath in
  '(rcode, rout) <- run G host command ;
  if rcode =? 0 then ret (Some (Py.strip rout)) else ret None.

Definition file_exists (G : Glusto) (host fqpath : string) : M bool :=
  '(rcode, _) <- run G host ("ls -ld " +:+ fqpath) ;
  ret (rcode =? 0).

(** [re.findall] on [None] is a [TypeError]. *)
Definition get_pathinfo (G : Glusto) (host fqpath : string) : M Pathinfo :=
  r <- get_fattr G host fqpath "trusted.glusterfs.pathinfo" ;
  match r with
  | None => raise TypeError
  | Some text =>
      ret {| raw := text;
             brickdir_paths := re_findall_brickdir_paths G text |}
  end.

Record GlusterFile : Type := mkGlusterFile {
  _host : string;
  _fqpath : string;
  _mountpoint : option string;
  _calculated_hash : option Z;
  _pathinfo : option Pathinfo;
  _parent_dir_pathinfo : option Pathinfo;
  _parent_dir_layout : option layout.Layout;
  _previous_fqpath : option string
}.

(** [GlusterFile(host, fqpath)] *)
Definition __init__ (host fqpath : string) : GlusterFile :=
  {| _host := host; _fqpath := fqpath; _mountpoint := None;
     _calculated_hash := None; _pathinfo := None;
     _parent_dir_pathinfo := None; _parent_dir_layout := None;
     _previous_fqpath := None |}.

Definition set_calculated_hash (self : GlusterFile) (h : Z) : GlusterFile :=
  {| _host := _host self; _fqpath := _fqpath self;
     _mountpoint := _mountpoint self; _calculated_hash := Some h;
     _pathinfo := _pathinfo self;
     _parent_dir_pathinfo := _parent_dir_pathinfo self;
     _parent_dir_layout := _parent_dir_layout self;
     _previous_fqpath := _previous_fqpath self |}.

Definition set_parent_dir_layout (self : GlusterFile) (l : layout.Layout)
  : GlusterFile :=
  {| _host := _host self; _fqpath := _fqpath self;
     _mountpoint := _mountpoint self;
     _calculated_hash := _calculated_hash self;
     _pathinfo := _pathinfo self;
     _parent_dir_pathinfo := _parent_dir_pathinfo self;
     _parent_dir_layout := Some l;
     _previous_fqpath := _previous_fqpath self |}.

Definition host (self : GlusterFile) : string := _host self.
Definition fqpath (self : GlusterFile) : string := _fqpath self.
Definition basename (self : GlusterFile) : string :=
  Py.basename (_fqpath self).
Definition parent_dir (self : GlusterFile) : string :=
  Py.dirname (_fqpath self).

Definition parent_dir_pathinfo (G : Glusto) (self : GlusterFile)
  : M Pathinfo :=
  get_pathinfo G (_host self) (parent_dir self).

Definition exists_on_client (G : Glusto) (self : GlusterFile) : M bool :=
  file_exists G (_host self) (_fqpath self).

Definition calculated_hash (G : Glusto) (self : GlusterFile)
  : GlusterFile * Z :=
  match _calculated_hash self with
  | None =>
      let h := calculate_hash G (_host self) (basename self) in
      (set_calculated_hash self h, h)
  | Some h => (self, h)
  end.

Definition parent_dir_layout (E : Env) (self : GlusterFile)
  : M (GlusterFile * layout.Layout) :=
  match _parent_dir_layout self with
  | None =>
      pathinfo <- parent_dir_pathinfo E self ;
      layout <- Layout E (parent_dir self) pathinfo ;
      ret (set_parent_dir_layout self layout, layout)
  | Some layout => ret (self, layout)
  end.

(** One round of the loop of [hashed_bricks].  [low] and [high] are read
    first; the chained comparison reads [calculated_hash] once and
    compares with [high] only when [low < hash] holds.  Both bounds are
    numbers whenever the two properties return ([read_bounds] below), so
    the comparison with [None] never takes place. *)
Definition hashed_bricks_step (G : Glusto) (self : GlusterFile)
    (brickdir : brickdir.BrickDir) (brickpaths : list string)
  : M (GlusterFile * brickdir.BrickDir * list string) :=
  '(brickdir, low) <- brickdir.hashrange_low G brickdir ;
  '(brickdir, high) <- brickdir.hashrange_high G brickdir ;
  let '(self, hash) := calculated_hash G self in
  low <- int_of low ;
  if low <? hash then
    high <- int_of high ;
    if hash <? high then
      ret (self, brickdir, brickpaths ++ [brickdir.path brickdir])
    else ret (self, brickdir, brickpaths)
  else ret (self, brickdir, brickpaths).

(** The loop over [self.parent_dir_layout.brickdirs]; the brick
    directories are objects of the layout, so what they cache stays in
    the layout. *)
Fixpoint hashed_bricks_loop (G : Glusto) (self : GlusterFile)
    (bricks : list brickdir.BrickDir) (brickpaths : list string)
  : M (GlusterFile * list brickdir.BrickDir * list string) :=
  match bricks with
  | [] => ret (self, [], brickpaths)
  | b :: rest =>
      '(self, b, brickpaths) <- hashed_bricks_step G self b brickpaths ;
      '(self, rest, brickpaths) <-
        hashed_bricks_loop G self rest brickpaths ;
      ret (self, b :: rest, brickpaths)
  end.

Definition hashed_bricks (E : Env) (self : GlusterFile)
  : M (GlusterFile * list string) :=
  '(self, layout) <- parent_dir_layout E self ;
  '(self, bricks, brickpaths) <-
    hashed_bricks_loop E self (layout.brickdirs layout) [] ;
  ret (set_parent_dir_layout self (layout.set_brickdirs layout bricks),
       brickpaths).

Definition exists_on_hashed_bricks (E : Env) (self : GlusterFile)
  : M (GlusterFile * bool) :=
  '(self, bricks) <- hashed_bricks E self ;
  flag <- for_each
            (fun flag brickdir_path =>
               '(host, fqpath) <- unpack2 (Py.split ":" brickdir_path) ;
               found <- file_exists E host fqpath ;
               ret (if found then flag else Z.lor flag 1))
            bricks 0 ;
  ret (self, flag =? 0).

(** *** The other remote helpers of the module *)

Definition get_mountpoint (G : Glusto) (host fqpath : string)
  : M (option string) :=
  let command := "df -P " +:+ fqpath +:+ " | awk 'END{print $NF}'" in
  '(rcode, rout) <- run G host command ;
  if rcode =? 0 then ret (Some (Py.strip rout)) else ret None.

Definition set_fattr (G : Glusto) (host fqpath fattr value : string)
  : M bool :=
  let command :=
    "setfattr -n " +:+ fattr +:+ " -v " +:+ value +:+ " " +:+ fqpath in
  '(rcode, _) <- run G host command ;
  ret (rcode =? 0).

Definition delete_fattr (G : Glusto) (host fqpath fattr : string) : M bool :=
  let command := "setfattr -x " +:+ fattr +:+ " " +:+ fqpath in
  '(rcode, _) <- run G host command ;
  ret (rcode =? 0).

Definition get_md5sum (G : Glusto) (host fqpath : string)
  : M (option string) :=
  '(rcode, rout) <- run G host ("md5sum " +:+ fqpath) ;
  if rcode =? 0 then ret (Some (Py.strip rout)) else ret None.

Definition statformat : string := "%F:%n:%i:%a:%s:%h:%u:%g:%U:%G".

(** [get_file_stat]: the ten fields of the output are unpacked, then
    stored in a dictionary in the order of the source. *)
Definition get_file_stat (G : Glusto) (host fqpath : string)
  : M (option (gmap string string)) :=
  let command := "stat -c '" +:+ statformat +:+ "' " +:+ fqpath in
  '(rcode, rout) <- run G host command ;
  if rcode =? 0 then
    let stat_string := Py.strip rout in
    match Py.split ":" stat_string with
    | [filetype; filename; inode; access; size; links; uid; gid; username;
       groupname] =>
        let stat_data := (∅ : gmap string string) in
        let stat_data := <["filetype" := filetype]> stat_data in
        let stat_data := <["filename" := filename]> stat_data in
        let stat_data := <["inode" := inode]> stat_data in
        let stat_data := <["access" := access]> stat_data in
        let stat_data := <["size" := size]> stat_data in
        let stat_data := <["links" := links]> stat_data in
        let stat_data := <["username" := username]> stat_data in
        let stat_data := <["groupname" := groupname]> stat_data in
        let stat_data := <["uid" := uid]> stat_data in
        let stat_data := <["gid" := gid]> stat_data in
        ret (Some stat_data)
    | _ => raise ValueError
    end
  else ret None.

Definition set_file_permissions (G : Glusto) (host fqpath perms : string)
  : M bool :=
  '(rcode, _) <- run G host ("chmod " +:+ perms +:+ " " +:+ fqpath) ;
  ret (rcode =? 0).

Definition set_file_owner (G : Glusto) (host fqpath user : string)
  : M bool :=
  '(rcode, _) <- run G host ("chown " +:+ user +:+ " " +:+ fqpath) ;
  ret (rcode =? 0).

Definition set_file_group (G : Glusto) (host fqpath group : string)
  : M bool :=
  '(rcode, _) <- run G host ("chgrp " +:+ group +:+ " " +:+ fqpath) ;
  ret (rcode =? 0).

Definition move_file (G : Glusto) (host source_fqpath dest_fqpath : string)
  : M bool :=
  '(rcode, _) <-
    run G host ("mv " +:+ source_fqpath +:+ " " +:+ dest_fqpath) ;
  ret (rcode =? 0).

(** *** The other attributes and methods of [GlusterFile] *)

Definition set_mountpoint (self : GlusterFile) (m : option string)
  : GlusterFile :=
  {| _host := _host self; _fqpath := _fqpath self; _mountpoint := m;
     _calculated_hash := _calculated_hash self;
     _pathinfo := _pathinfo self;
     _parent_dir_pathinfo := _parent_dir_pathinfo self;
     _parent_dir_layout := _parent_dir_layout self;
     _previous_fqpath := _previous_fqpath self |}.

Definition set_pathinfo (self : GlusterFile) (pi : Pathinfo) : GlusterFile :=
  {| _host := _host self; _fqpath := _fqpath self;
     _mountpoint := _mountpoint self;
     _calculated_hash := _calculated_hash self;
     _pathinfo := Some pi;
     _parent_dir_pathinfo := _parent_dir_pathinfo self;
     _parent_dir_layout := _parent_dir_layout self;
     _previous_fqpath := _previous_fqpath self |}.

(** [self._previous_fqpath = self._fqpath; self._fqpath = dest_fqpath] *)
Definition set_fqpath (self : GlusterFile) (dest_fqpath : string)
  : GlusterFile :=
  {| _host := _host self; _fqpath := dest_fqpath;
     _mountpoint := _mountpoint self;
     _calculated_hash := _calculated_hash self;
     _pathinfo := _pathinfo self;
     _parent_dir_pathinfo := _parent_dir_pathinfo self;
     _parent_dir_layout := _parent_dir_layout self;
     _previous_fqpath := Some (_fqpath self) |}.

Definition mountpoint (G : Glusto) (self : GlusterFile)
  : M (GlusterFile * option string) :=
  match _mountpoint self with
  | None =>
      m <- get_mountpoint G (_host self) (_fqpath self) ;
      ret (set_mountpoint self m, m)
  | Some m => ret (self, Some m)
  end.

(** The property assigns [_pathinfo] at every access and never reads it. *)
Definition pathinfo (G : Glusto) (self : GlusterFile)
  : M (GlusterFile * Pathinfo) :=
  pi <- get_pathinfo G (_host self) (_fqpath self) ;
  ret (set_pathinfo self pi, pi).

Definition exists_on_bricks (G : Glusto) (self : GlusterFile)
  : M (GlusterFile * bool) :=
  '(self, pi) <- pathinfo G self ;
  flag <- for_each
            (fun flag brickdir_path =>
               '(host, fqpath) <- unpack2 (Py.split ":" brickdir_path) ;
               found <- file_exists G host fqpath ;
               ret (if found then flag else Z.lor flag 1))
            (brickdir_paths pi) 0 ;
  ret (self, flag =? 0).

(** [exists]: the pair, the client first. *)
Definition exists_ (G : Glusto) (self : GlusterFile)
  : M (GlusterFile * (bool * bool)) :=
  on_client <- exists_on_client G self ;
  '(self, on_bricks) <- exists_on_bricks G self ;
  ret (self, (on_client, on_bricks)).

Definition stat_on_client (G : Glusto) (self : GlusterFile)
  : M (option (gmap string string)) :=
  get_file_stat G (_host self) (_fqpath self).

Definition md5sum_on_client (G : Glusto) (self : GlusterFile)
  : M (option string) :=
  get_md5sum G (_host self) (_fqpath self).

(** [md5sum_on_bricks]: a dictionary from brick path to checksum. *)
Definition md5sum_on_bricks (G : Glusto) (self : GlusterFile)
  : M (GlusterFile * gmap string (option string)) :=
  '(self, pi) <- pathinfo G self ;
  file_md5s <- for_each
                 (fun file_md5s brickdir_path =>
                    '(host, fqpath) <- unpack2 (Py.split ":" brickdir_path) ;
                    md5 <- get_md5sum G host fqpath ;
                    ret (<[brickdir_path := md5]> file_md5s))
                 (brickdir_paths pi) (∅ : gmap string (option string)) ;
  ret (self, file_md5s).

Definition move (G : Glusto) (self : GlusterFile) (dest_fqpath : string)
  : M (GlusterFile * bool) :=
  moved <- move_file G (_host self) (_fqpath self) dest_fqpath ;
  if moved then ret (set_fqpath self dest_fqpath, true)
  else ret (self, false).

Definition create (G : Glusto) (self : GlusterFile) : M bool :=
  on_client <- exists_on_client G self ;
  if negb on_client then
    '(rcode, _) <- run G (_host self) ("mkdir -p " +:+ parent_dir self) ;
    if negb (rcode =? 0) then ret false
    else
      '(rcode, _) <-
        run G (_host self) ("cp /etc/inittab " +:+ _fqpath self) ;
      if rcode =? 0 then ret true else ret false
  else ret false.

Definition get_xattr (G : Glusto) (self : GlusterFile) (xattr : string)
  : M (option string) :=
  get_fattr G (_host self) (_fqpath self) xattr.

Definition set_xattr (G : Glusto) (self : GlusterFile) (xattr value : string)
  : M bool :=
  set_fattr G (_host self) (_fqpath self) xattr value.

Definition delete_xattr (G : Glusto) (self : GlusterFile) (xattr : string)
  : M bool :=
  delete_fattr G (_host self) (_fqpath self) xattr.

End glusterfile.

(** ** glusterdir.py *)

Module glusterdir.

(** [GlusterDir] inherits every attribute used here from [GlusterFile]. *)
Definition GlusterDir : Type := glusterfile.GlusterFile.
Definition __init__ (host fqpath : string) : GlusterDir :=
  glusterfile.__init__ host fqpath.

(** [mkdir(host, fqpath, parents, mode)]: the command is the list of
    words joined by spaces. *)
Definition mkdir (G : Glusto) (host fqpath : string) (parents : bool)
    (mode : option string) : M bool :=
  let command_list := ["mkdir"] in
  let command_list :=
    if parents then command_list ++ ["-p"] else command_list in
  let command_list :=
    match mode with
    | Some m => command_list ++ ["-m " +:+ m]
    | None => command_list
    end in
  let command_list := command_list ++ [fqpath] in
  '(rcode, _) <- run G host (Py.str_join " " command_list) ;
  ret (rcode =? 0).

Definition rmdir (G : Glusto) (host fqpath : string) (force : bool)
  : M bool :=
  let command_list := ["rmdir"] in
  let command_list := if force then ["rm"] ++ ["-rf"] else command_list in
  let command_list := command_list ++ [fqpath] in
  '(rcode, _) <- run G host (Py.str_join " " command_list) ;
  ret (rcode =? 0).

(** [GlusterDir.mkdir] *)
Definition GlusterDir_mkdir (G : Glusto) (self : GlusterDir)
    (parents : bool) (mode : option string) : M bool :=
  on_client <- glusterfile.exists_on_client G self ;
  if negb on_client then
    made <- mkdir G (glusterfile._host self) (glusterfile._fqpath self)
              parents mode ;
    if made then ret true else ret false
  else ret false.

(** [GlusterDir.create] overrides [GlusterFile.create]. *)
Definition create (G : Glusto) (self : GlusterDir) : M bool :=
  GlusterDir_mkdir G self true None.

End glusterdir.

(** ** dht_test_utils.py *)

Module dht_test_utils.
Import constants.

Definition run_layout_tests (E : Env) (fqpath : string)
    (layout : layout.Layout) (test_type : Z) : M bool :=
  _ <- emit (EvLayoutTests fqpath) ;
  _ <- (if truthy (Z.land test_type (TEST_LAYOUT_IS_COMPLETE (k E))) then
          if negb (layout.is_complete layout) then
            raise (LayoutIsNotCompleteException
                     ("Layout for " +:+ fqpath +:+ " IS NOT COMPLETE"))
          else ret tt
        else ret tt) ;
  _ <- (if truthy (Z.land test_type (TEST_LAYOUT_IS_BALANCED (k E))) then
          if negb (layout.is_balanced layout) then
            raise (LayoutIsNotBalancedException
                     ("Layout for " +:+ fqpath +:+ " IS NOT BALANCED"))
          else ret tt
        else ret tt) ;
  ret true.

Definition run_hashed_bricks_test (E : Env)
    (gfile : glusterfile.GlusterFile) : M (glusterfile.GlusterFile * bool) :=
  '(gfile, found) <- glusterfile.exists_on_hashed_bricks E gfile ;
  if negb found then
    raise (FileDoesNotExistOnHashedBricks
             ("File/Dir " +:+ glusterfile.fqpath gfile +:+
              " DOES NOT EXIST on hashed bricks."))
  else ret (gfile, true).

(** The body of both inner loops of [validate_files_in_dir]: the one over
    [walkies[1]] builds a [GlusterDir], the one over [walkies[2]] a
    [GlusterFile], and they are the same otherwise. *)
Definition check_entry (E : Env) (host : string) (test_type : Z)
    (walk_root : string) (layout_cache : gmap string layout.Layout)
    (name : string) : M (gmap string layout.Layout) :=
  let fqpath := Py.join walk_root name in
  let gfile := glusterfile.__init__ host fqpath in
  layout_cache <-
    (match layout_cache !! glusterfile.parent_dir gfile with
     | Some _ => ret layout_cache
     | None =>
         pathinfo <- glusterfile.parent_dir_pathinfo E gfile ;
         layout <- Layout E (glusterfile.parent_dir gfile) pathinfo ;
         let layout_cache :=
           <[glusterfile.parent_dir gfile := layout]> layout_cache in
         _ <- run_layout_tests E (glusterfile.parent_dir gfile) layout
                test_type ;
         ret layout_cache
     end) ;
  if truthy (Z.land test_type (TEST_FILE_EXISTS_ON_HASHED_BRICKS (k E)))
  then _ <- run_hashed_bricks_test E gfile ; ret layout_cache
  else ret layout_cache.

(** The body of the loop over [os.walk]. *)
Definition check_walkies (E : Env) (host : string) (file_type test_type : Z)
    (layout_cache : gmap string layout.Layout)
    (walkies : string * list string * list string)
  : M (gmap string layout.Layout) :=
  let '(root, dirs, files) := walkies in
  layout_cache <-
    (if truthy (Z.land file_type (FILETYPE_DIR (k E))) then
       for_each (check_entry E host test_type root) dirs layout_cache
     else ret layout_cache) ;
  if truthy (Z.land file_type (FILETYPE_FILE (k E))) then
    for_each (check_entry E host test_type root) files layout_cache
  else ret layout_cache.

(** The layout cache is a local of the call; only [True] is returned. *)
Definition validate_files_in_dir (E : Env) (host rootdir : string)
    (file_type test_type : Z) : M bool :=
  _ <- for_each (check_walkies E host file_type test_type)
         (os_walk E host rootdir) (∅ : gmap string layout.Layout) ;
  ret true.

End dht_test_utils.

(** * Vocabulary of the properties *)

(** The state once one more command was issued. *)
Definition after_run (s : State) (host command : string) : State :=
  {| runs := (host, command) :: runs s; trace := trace s |}.

(** The cached range of a brick directory is filled. *)
Definition is_resolved (b : brickdir.BrickDir) : bool :=
  match brickdir._hashrange b, brickdir._hashrange_low b,
        brickdir._hashrange_high b with
  | Some _, Some _, Some _ => true
  | _, _, _ => false
  end.

Definition low_of (b : brickdir.BrickDir) : Z :=
  default 0 (brickdir._hashrange_low b).
Definition high_of (b : brickdir.BrickDir) : Z :=
  default 0 (brickdir._hashrange_high b).

(** The test of [hashed_bricks]: strictly between the two bounds. *)
Definition owns (h : Z) (b : brickdir.BrickDir) : bool :=
  (low_of b <? h) && (h <? high_of b).

(** The test of [hashrange_contains_hash]: both bounds included. *)
Definition contains (h : Z) (b : brickdir.BrickDir) : bool :=
  (low_of b <=? h) && (h <=? high_of b).

(** The cache of a brick directory is empty or filled: the two states in
    which the methods of the class leave it. *)
Definition cache_ok (b : brickdir.BrickDir) : bool :=
  match brickdir._hashrange b with
  | None => true
  | Some _ => is_resolved b
  end.

(** The computation leaves the instrumentation alone. *)
Definition keeps_trace {A} (m : M A) : Prop :=
  forall s r s', m s = (r, s') -> trace s' = trace s.

(** The entries [validate_files_in_dir] goes through, in order: for every
    triple of the walk, the directory names when directories are
    selected, then the file names when files are selected, each with the
    directory of the triple. *)
Definition entries_of (E : Env) (host rootdir : string) (file_type : Z)
  : list (string * string) :=
  flat_map
    (fun '(root, dirs, files) =>
       (if truthy (Z.land file_type (constants.FILETYPE_DIR (k E)))
        then pair root <$> dirs else []) ++
       (if truthy (Z.land file_type (constants.FILETYPE_FILE (k E)))
        then pair root <$> files else []))
    (os_walk E host rootdir).

(** The parent directory of an entry, the key of the layout cache. *)
Definition entry_parent (e : string * string) : string :=
  Py.dirname (Py.join e.1 e.2).

(** The checks of a list of entries, one after the other. *)
Definition check_entries (E : Env) (host : string) (test_type : Z)
    (entries : list (string * string))
    (layout_cache : gmap string layout.Layout)
  : M (gmap string layout.Layout) :=
  for_each
    (fun layout_cache e =>
       dht_test_utils.check_entry E host test_type e.1 layout_cache e.2)
    entries layout_cache.

(** The messages of the two layout exceptions. *)
Definition not_complete_msg (fqpath : string) : string :=
  "Layout for " +:+ fqpath +:+ " IS NOT COMPLETE".
Definition not_balanced_msg (fqpath : string) : string :=
  "Layout for " +:+ fqpath +:+ " IS NOT BALANCED".

Definition count_event (e : event) (tr : list event) : nat :=
  length (filter (fun x => x = e) tr).

(** The computation only adds events, and at most [bound p] entries into
    [run_layout_tests] for the path [p], whatever its outcome. *)
Definition tests_at_most {A} (bound : string -> nat) (m : M A) : Prop :=
  forall s r s',
    m s = (r, s') ->
    exists new,
      trace s' = new ++ trace s /\
      forall p, (count_event (EvLayoutTests p) new <= bound p)%nat.

Definition all_hex (l : list ascii) : Prop :=
  Forall (fun c => Py.is_hex c = true) l.

(** A brick directory as [BrickDir(path)] leaves it. *)
Definition fresh_brick (path host fqpath : string) : brickdir.BrickDir :=
  {| brickdir._path := path; brickdir._host := host;
     brickdir._fqpath := fqpath; brickdir._hashrange := None;
     brickdir._hashrange_low := None; brickdir._hashrange_high := None |}.

(** A brick directory after a fetch that gave [(low, high)]. *)
Definition cached_brick (b : brickdir.BrickDir) (low high : Z)
  : brickdir.BrickDir :=
  {| brickdir._path := brickdir._path b; brickdir._host := brickdir._host b;
     brickdir._fqpath := brickdir._fqpath b;
     brickdir._hashrange := Some (low, high);
     brickdir._hashrange_low := Some low;
     brickdir._hashrange_high := Some high |}.

(** The number of occurrences of a character in a string. *)
Definition count_char (c : ascii) (s : string) : nat :=
  length (filter (fun x => x = c) (Py.chars s)).

(** The existence probes of a list of (host, path) pairs, the first one
    being the [n]-th command: every one of them succeeds. *)
Fixpoint all_found (G : Glusto) (n : nat) (hfs : list (string * string))
  : bool :=
  match hfs with
  | [] => true
  | hf :: rest =>
      ((g_run G n hf.1 ("ls -ld " +:+ hf.2)).1 =? 0) &&
      all_found G (S n) rest
  end.

(** The log after these probes, most recent first. *)
Definition after_probes (s : State) (hfs : list (string * string)) : State :=
  {| runs := rev ((fun hf => (hf.1, "ls -ld " +:+ hf.2)) <$> hfs) ++ runs s;
     trace := trace s |}.

(** Every path of the list is a host and a path on it. *)
Definition host_paths (paths : list string) (hfs : list (string * string))
  : Prop :=
  Forall2 (fun p hf => Py.split ":" p = [hf.1; hf.2]) paths hfs.

(** The commands of [get_pathinfo] and of [get_mountpoint]. *)
Definition pathinfo_command (fqpath : string) : string :=
  "getfattr --absolute-names --only-values -n 'trusted.glusterfs.pathinfo' "
  +:+ fqpath.
Definition mountpoint_command (fqpath : string) : string :=
  "df -P " +:+ fqpath +:+ " | awk 'END{print $NF}'".

(** The dictionary [get_pathinfo] makes of the output of its command. *)
Definition pathinfo_of (G : Glusto) (rout : string) : Pathinfo :=
  {| raw := Py.strip rout;
     brickdir_paths := re_findall_brickdir_paths G (Py.strip rout) |}.

(** The command of [get_file_stat]. *)
Definition stat_command (fqpath : string) : string :=
  "stat -c '%F:%n:%i:%a:%s:%h:%u:%g:%U:%G' " +:+ fqpath.

(** The text up to the last slash of the path of an entry of the
    directory [root], reversed: what [os.path.dirname] starts from. *)
Definition sibling_head (root : string) : list ascii :=
  match rev (Py.chars root) with
  | [] => []
  | d :: l => if Ascii.eqb d "/" then d :: l else "/"%char :: d :: l
  end.

(** * Concrete inputs *)

Module Examples.

(** Sample values for the bit masks. *)
Definition k0 : constants.Constants :=
  {| constants.FILETYPE_DIR := 1; constants.FILETYPE_FILE := 2;
     constants.FILETYPE_ALL := 255;
     constants.TEST_LAYOUT_IS_COMPLETE := 1;
     constants.TEST_LAYOUT_IS_BALANCED := 2;
     constants.TEST_FILE_EXISTS_ON_HASHED_BRICKS := 4;
     constants.TEST_ALL := 255 |}.

Definition s0 : State := {| runs := []; trace := [] |}.

(** A remote side where every command ends with [rcode] and prints
    [rout]; every name hashes to [h]. *)
Definition G_const (rcode : Z) (rout : string) (h : Z) : Glusto :=
  {| g_run := fun _ _ _ => (rcode, rout);
     gf_dm_hashfn := fun _ => h;
     os_walk := fun _ _ => [];
     re_findall_brickdir_paths := fun _ => [] |}.

Definition dht_xattr : string := "0x00000001000000000000000055555554".

(** The same attribute as the command prints it: spaces before, a newline
    after. *)
Definition dht_xattr_line : string :=
  "  " +:+ dht_xattr +:+ String "010" EmptyString.

Definition brick_b : brickdir.BrickDir := fresh_brick "h:/b" "h" "/b".

(** The range attribute changes after the first command. *)
Definition G_changing : Glusto :=
  {| g_run := fun n _ _ =>
       match n with
       | O => (0, "0x00000001000000000000000055555554")
       | _ => (0, "0x000000010000000055555555aaaaaaa9")
       end;
     gf_dm_hashfn := fun _ => 0;
     os_walk := fun _ _ => [];
     re_findall_brickdir_paths := fun _ => [] |}.

(** A layout without brick directories. *)
Definition layout_empty (complete balanced : bool) : layout.Layout :=
  {| layout.brickdirs := []; layout.is_complete := complete;
     layout.is_balanced := balanced; layout.holes := [];
     layout.overlaps := [] |}.

(** Two incomplete layouts with different faults. *)
Definition layout_hole : layout.Layout :=
  {| layout.brickdirs := []; layout.is_complete := false;
     layout.is_balanced := true;
     layout.holes := [(2147483648, 2415919103)]; layout.overlaps := [] |}.

Definition layout_overlap : layout.Layout :=
  {| layout.brickdirs := []; layout.is_complete := false;
     layout.is_balanced := true; layout.holes := [];
     layout.overlaps := [((0, 2415919103), (2147483648, 4294967295))] |}.

(** A brick directory that owns the range from 0 to 100. *)
Definition brick_0_100 : brickdir.BrickDir := cached_brick brick_b 0 100.

Definition layout_one_brick : layout.Layout :=
  {| layout.brickdirs := [brick_0_100]; layout.is_complete := true;
     layout.is_balanced := true; layout.holes := [];
     layout.overlaps := [] |}.

(** The directory [/mnt] holds [files] and no directory; [getfattr] works,
    [ls] fails everywhere and every name hashes to [h]. *)
Definition G_mnt (files : list string) (h : Z) : Glusto :=
  {| g_run := fun _ _ command =>
       if String.prefix "ls" command then (2, "") else (0, "");
     gf_dm_hashfn := fun _ => h;
     os_walk := fun _ _ => [("/mnt", [], files)];
     re_findall_brickdir_paths := fun _ => [] |}.

Definition E_mnt (files : list string) (h : Z) (l : layout.Layout) : Env :=
  {| glusto := G_mnt files h;
     Layout_new := fun _ log => (Ok l, log);
     k := k0 |}.

Definition E_const (rcode : Z) (rout : string) (h : Z) : Env :=
  {| glusto := G_const rcode rout h;
     Layout_new := fun _ log => (Ok (layout_empty true true), log);
     k := k0 |}.

(** A file whose parent layout is known already. *)
Definition file_in (l : layout.Layout) : glusterfile.GlusterFile :=
  glusterfile.set_parent_dir_layout (glusterfile.__init__ "client" "/mnt/a") l.

(** The pathinfo attribute names two bricks; [ls] fails everywhere and
    every other command works. *)
Definition G_two_bricks : Glusto :=
  {| g_run := fun _ _ command =>
       if String.prefix "ls" command then (2, "") else (0, "out");
     gf_dm_hashfn := fun _ => 0;
     os_walk := fun _ _ => [];
     re_findall_brickdir_paths := fun _ => ["h1:/b1"; "h2:/b2"] |}.

(** The directory [/mnt] holds the file [a] and every command fails. *)
Definition G_down : Glusto :=
  {| g_run := fun _ _ _ => (1, "");
     gf_dm_hashfn := fun _ => 0;
     os_walk := fun _ _ => [("/mnt", [], ["a"])];
     re_findall_brickdir_paths := fun _ => [] |}.

Definition E_down : Env :=
  {| glusto := G_down;
     Layout_new := fun _ log => (Ok (layout_empty true true), log);
     k := k0 |}.

(** An output of [stat] in the format of [get_file_stat]. *)
Definition stat_out : string :=
  "regular file:/mnt/a:42:644:0:1:0:0:root:root".

Definition file_a : glusterfile.GlusterFile :=
  glusterfile.__init__ "client" "/mnt/a".

(** A log with one earlier command. *)
Definition s_one : State := {| runs := [("client", "true")]; trace := [] |}.

End Examples.

(** * Properties *)

(** ** The string primitives *)

Section PyFacts.
Import Py.

Lemma chars_str l : chars (str l) = l.
Proof. apply list_ascii_of_string_of_list_ascii. Qed.

Lemma str_chars s : str (chars s) = s.
Proof. apply string_of_list_ascii_of_string. Qed.

Lemma is_hex_not_space c : is_hex c = true -> is_space c = false.
Proof.
  destruct c as [[] [] [] [] [] [] [] []]; vm_compute; congruence.
Qed.

Lemma is_hex_neqb c d : is_hex d = false -> is_hex c = true ->
  Ascii.eqb c d = false.
Proof.
  intros Hd Hc. destruct (Ascii.eqb_spec c d) as [->|]; congruence.
Qed.

Lemma lstrip_chars_head c l :
  is_space c = false -> lstrip_chars (c :: l) = c :: l.
Proof. intros H. simpl. by rewrite H. Qed.

Lemma lstrip_chars_app pre t :
  t <> [] -> Forall (fun c => is_space c = false) t ->
  exists pre', lstrip_chars (pre ++ t) = pre' ++ t.
Proof.
  intros Hne Ht. induction pre as [|c pre IH].
  - exists []. destruct t as [|c t]; [done|].
    inversion Ht; subst. by apply lstrip_chars_head.
  - simpl. destruct (is_space c); [exact IH|]. by exists (c :: pre).
Qed.

Lemma strip_chars_app pre t :
  t <> [] -> Forall (fun c => is_space c = false) t ->
  exists pre', strip_chars (pre ++ t) = pre' ++ t.
Proof.
  intros Hne Ht. unfold strip_chars.
  destruct (lstrip_chars_app pre t Hne Ht) as [pre' ->].
  exists pre'. rewrite rev_app_distr.
  destruct (rev t) as [|c rt] eqn:Hrt.
  - apply (f_equal (@rev ascii)) in Hrt. rewrite rev_involutive in Hrt.
    done.
  - assert (Hc : is_space c = false).
    { apply (proj1 (Forall_forall _ _) Ht).
      apply list_elem_of_In, in_rev. rewrite Hrt. by left. }
    rewrite <- app_comm_cons, lstrip_chars_head by done.
    rewrite app_comm_cons, <- Hrt, <- rev_app_distr.
    apply rev_involutive.
Qed.

Lemma strip_chars_id l :
  Forall (fun c => is_space c = false) l -> strip_chars l = l.
Proof.
  intros Hl. destruct l as [|c l]; [done|].
  destruct (strip_chars_app [] (c :: l)) as [pre' H]; [done|done|].
  simpl in H. rewrite H.
  assert (Hlen : (length (strip_chars (c :: l)) <= length (c :: l))%nat).
  { unfold strip_chars. rewrite length_rev.
    assert (Hle : forall x, (length (lstrip_chars x) <= length x)%nat).
    { induction x as [|a x IHx]; simpl; [lia|].
      destruct (is_space a); simpl; lia. }
    etrans; [apply Hle|]. rewrite length_rev. apply Hle. }
  rewrite H, length_app in Hlen.
  destruct pre'; [done|]. simpl in Hlen. lia.
Qed.

Lemma last_chars_app n pre (t : list ascii) :
  length t = n -> last_chars n (pre ++ t) = t.
Proof.
  intros <-. unfold last_chars. rewrite length_app.
  replace (length pre + length t - length t)%nat with (length pre) by lia.
  by rewrite drop_app_length.
Qed.

Lemma last_chars_short n (l : list ascii) :
  (length l <= n)%nat -> last_chars n l = l.
Proof.
  intros H. unfold last_chars.
  replace (length l - n)%nat with 0%nat by lia. done.
Qed.

Lemma hex_digits_value acc l :
  Forall (fun c => is_hex c = true) l ->
  hex_digits acc l = Some (hex_value acc l).
Proof.
  intros Hl. revert acc. induction Hl as [|c l Hc _ IH]; intros acc; [done|].
  simpl. unfold is_hex in Hc. destruct (hex_digit c); [|done]. apply IH.
Qed.

Lemma hex_digit_range c d : hex_digit c = Some d -> 0 <= d < 16.
Proof.
  unfold hex_digit.
  repeat case_match; intros [= <-]; lia.
Qed.

Lemma hex_value_range acc l :
  0 <= acc ->
  acc * 16 ^ Z.of_nat (length l) <= hex_value acc l
  < (acc + 1) * 16 ^ Z.of_nat (length l).
Proof.
  revert acc. induction l as [|c l IH]; intros acc Hacc.
  - simpl. lia.
  - cbn [hex_value length].
    assert (Hd : 0 <= default 0 (hex_digit c) < 16).
    { destruct (hex_digit c) as [d|] eqn:E; simpl; [|lia].
      by apply hex_digit_range in E. }
    specialize (IH (16 * acc + default 0 (hex_digit c))).
    rewrite Nat2Z.inj_succ, Z.pow_succ_r by lia.
    assert (0 < 16 ^ Z.of_nat (length l)) by (apply Z.pow_pos_nonneg; lia).
    nia.
Qed.

(** [int(s, 16)] on a non-empty string of hex digits is its value. *)
Lemma Py_int16_hex l :
  l <> [] -> Forall (fun c => is_hex c = true) l ->
  int16 l = Some (hex_value 0 l).
Proof.
  intros Hne Hl. unfold int16.
  rewrite strip_chars_id
    by (eapply Forall_impl; [exact Hl|]; apply is_hex_not_space).
  destruct l as [|c1 l]; [done|].
  inversion Hl as [|? ? Hc1 Hl']; subst.
  rewrite (is_hex_neqb c1 "-"), (is_hex_neqb c1 "+") by done.
  assert (Hpre : match c1 :: l with
                 | a :: b :: r =>
                     if Ascii.eqb a "0" &&
                        (Ascii.eqb b "x" || Ascii.eqb b "X")
                     then r else c1 :: l
                 | _ => c1 :: l
                 end = c1 :: l).
  { destruct l as [|c2 l]; [done|].
    inversion Hl' as [|? ? Hc2 _]; subst.
    rewrite (is_hex_neqb c2 "x"), (is_hex_neqb c2 "X") by done.
    by rewrite andb_false_r. }
  rewrite Hpre, hex_digits_value by done.
  generalize (hex_value 0 (c1 :: l)). intros v. simpl. by destruct v.
Qed.

End PyFacts.

(** ** The monad *)

Lemma bind_ok {A B} (m : M A) (f : A -> M B) s a s' :
  m s = (Ok a, s') -> bind m f s = f a s'.
Proof. intros H. unfold bind. by rewrite H. Qed.

Lemma bind_raise {A B} (m : M A) (f : A -> M B) s e s' :
  m s = (Raise e, s') -> bind m f s = (Raise e, s').
Proof. intros H. unfold bind. by rewrite H. Qed.

Lemma bind_inv_ok {A B} (m : M A) (f : A -> M B) s b s2 :
  bind m f s = (Ok b, s2) ->
  exists a s1, m s = (Ok a, s1) /\ f a s1 = (Ok b, s2).
Proof.
  unfold bind. destruct (m s) as [[a|e] s1]; [eauto|discriminate].
Qed.

Lemma bind_inv_raise {A B} (m : M A) (f : A -> M B) s e s2 :
  bind m f s = (Raise e, s2) ->
  m s = (Raise e, s2) \/
  exists a s1, m s = (Ok a, s1) /\ f a s1 = (Raise e, s2).
Proof.
  unfold bind. destruct (m s) as [[a|e'] s1]; [eauto|].
  intros [= -> ->]. by left.
Qed.

(** ** brickdir.py: decoding of the range attribute *)

Section BrickDirFacts.
Import brickdir.
Context (G : Glusto).

Lemma unpack2_inv xs a b s s' :
  unpack2 xs s = (Ok (a, b), s') -> xs = [a; b] /\ s' = s.
Proof.
  destruct xs as [|x [|y [|z xs]]]; simpl; try discriminate.
  by intros [= -> -> ->].
Qed.

Lemma int16_hex_ok l s :
  l <> [] -> all_hex l -> int16 l s = (Ok (Py.hex_value 0 l), s).
Proof. intros Hne Hl. unfold int16. by rewrite Py_int16_hex. Qed.

Lemma decode_hashrange_eq full s :
  decode_hashrange full s =
    let trailing := Py.last_chars 16 (Py.chars full) in
    match Py.int16 (Py.first_chars 8 trailing),
          Py.int16 (Py.last_chars 8 trailing) with
    | Some low, Some high => (Ok (low, high), s)
    | _, _ => (Raise ValueError, s)
    end.
Proof.
  unfold decode_hashrange, bind, int16, ret, raise. cbv zeta.
  destruct (Py.int16 (Py.first_chars 8 (Py.last_chars 16 (Py.chars full))));
    [|done].
  by destruct (Py.int16 (Py.last_chars 8 (Py.last_chars 16 (Py.chars full)))).
Qed.

Lemma get_hashrange_eq path host fqpath s :
  Py.split ":" path = [host; fqpath] ->
  get_hashrange G path s =
    let '(rcode, rout) :=
      g_run G (length (runs s)) host (hashrange_command fqpath) in
    let s1 := after_run s host (hashrange_command fqpath) in
    if rcode =? 0 then
      match decode_hashrange (Py.strip rout) s1 with
      | (Ok r, s2) => (Ok (Some r), s2)
      | (Raise e, s2) => (Raise e, s2)
      end
    else (Ok None, s1).
Proof.
  intros Hsplit. unfold get_hashrange, bind, run, ret, after_run.
  rewrite Hsplit. simpl.
  destruct (g_run G _ _ _) as [rcode rout]. by destruct (rcode =? 0).
Qed.

(** A fetch that returns issued exactly one command. *)
Lemma get_hashrange_one_command path s r s1 :
  get_hashrange G path s = (Ok r, s1) ->
  exists host fqpath,
    Py.split ":" path = [host; fqpath] /\
    s1 = after_run s host (hashrange_command fqpath).
Proof.
  intros H. pose proof H as H0. unfold get_hashrange in H0.
  apply bind_inv_ok in H0 as ([host fqpath] & s' & Hsp & _).
  apply unpack2_inv in Hsp as [Hsp _].
  exists host, fqpath. split; [done|].
  rewrite (get_hashrange_eq _ _ _ _ Hsp) in H.
  destruct (g_run G _ _ _) as [rcode rout]. cbv zeta in H.
  destruct (rcode =? 0); [|by inversion H].
  rewrite decode_hashrange_eq in H. cbv zeta in H.
  repeat case_match; by simplify_eq/=.
Qed.

Lemma all_hex_nonempty_take n (t : list ascii) :
  (0 < n)%nat -> t <> [] -> take n t <> [].
Proof. destruct n, t; simpl; (lia || done). Qed.

Lemma all_hex_nonempty_last n (t : list ascii) :
  (0 < n)%nat -> t <> [] -> Py.last_chars n t <> [].
Proof.
  intros Hn Ht Heq. apply (f_equal length) in Heq.
  unfold Py.last_chars in Heq. rewrite length_drop in Heq.
  destruct t; [done|]. simpl in Heq. lia.
Qed.

(** What the decoding gives on hex digits, whatever their number. *)
Lemma decode_hashrange_hex full s :
  let t := Py.last_chars 16 (Py.chars full) in
  t <> [] -> all_hex t ->
  decode_hashrange full s =
    (Ok (Py.hex_value 0 (Py.first_chars 8 t),
         Py.hex_value 0 (Py.last_chars 8 t)), s).
Proof.
  intros t Hne Hhex. rewrite decode_hashrange_eq. cbv zeta. fold t.
  rewrite !Py_int16_hex; [done|..].
  - apply all_hex_nonempty_last; [lia|done].
  - by apply Forall_drop.
  - apply all_hex_nonempty_take; [lia|done].
  - by apply Forall_take.
Qed.

(** C6: when the command succeeds and its output, once the white space
    around it is stripped (the newline the command prints after the value,
    for one), ends in 16 hex digits, [get_hashrange] returns the pair made
    of the first 8 of them and of the last 8 of them, each read as an
    unsigned hex number, and both numbers lie between 0 and 2^32 - 1. *)
Theorem get_hashrange_trailing16 path host fqpath rout pre t s :
  Py.split ":" path = [host; fqpath] ->
  g_run G (length (runs s)) host (hashrange_command fqpath) = (0, rout) ->
  Py.chars (Py.strip rout) = pre ++ t -> length t = 16%nat -> all_hex t ->
  let low := Py.hex_value 0 (take 8 t) in
  let high := Py.hex_value 0 (drop 8 t) in
  get_hashrange G path s =
    (Ok (Some (low, high)), after_run s host (hashrange_command fqpath)) /\
  0 <= low <= 2 ^ 32 - 1 /\ 0 <= high <= 2 ^ 32 - 1.
Proof.
  intros Hsp Hrun Hrout Hlen Hhex low high.
  assert (Hne : t <> []) by (destruct t; [discriminate|done]).
  assert (Htrail : Py.last_chars 16 (Py.chars (Py.strip rout)) = t)
    by (rewrite Hrout; by apply last_chars_app).
  split.
  - rewrite (get_hashrange_eq _ _ _ _ Hsp), Hrun. cbv zeta.
    change (0 =? 0) with true. cbv iota.
    rewrite decode_hashrange_hex; rewrite Htrail; [|done..].
    unfold Py.first_chars, Py.last_chars. rewrite Hlen. done.
  - assert (H8 : length (take 8 t) = 8%nat) by (rewrite length_take; lia).
    assert (H8' : length (drop 8 t) = 8%nat) by (rewrite length_drop; lia).
    pose proof (hex_value_range 0 (take 8 t) ltac:(lia)) as H1.
    pose proof (hex_value_range 0 (drop 8 t) ltac:(lia)) as H2.
    rewrite H8 in H1. rewrite H8' in H2. subst low high.
    change (16 ^ Z.of_nat 8) with (2 ^ 32) in *. lia.
Qed.

(** C2, as the code has it: with a readable attribute (return code 0)
    there is no length check.  A value that, once stripped, is 1 to 15 hex
    digits long is decoded from what is there: the first 8 characters (or
    all of them) give low and the last 8 (or all of them) give high.  An
    empty value is rejected by [int] with a [ValueError], and whatever the
    value the outcome is a pair or a [ValueError]. *)
Theorem get_hashrange_no_length_check path host fqpath rout s :
  Py.split ":" path = [host; fqpath] ->
  g_run G (length (runs s)) host (hashrange_command fqpath) = (0, rout) ->
  let v := Py.chars (Py.strip rout) in
  let s1 := after_run s host (hashrange_command fqpath) in
  ((0 < length v < 16)%nat -> all_hex v ->
   get_hashrange G path s =
     (Ok (Some (Py.hex_value 0 (take 8 v),
                Py.hex_value 0 (drop (length v - 8) v))), s1)) /\
  (v = [] -> get_hashrange G path s = (Raise ValueError, s1)) /\
  ((exists p, get_hashrange G path s = (Ok (Some p), s1)) \/
   get_hashrange G path s = (Raise ValueError, s1)).
Proof.
  intros Hsp Hrun v s1.
  rewrite (get_hashrange_eq _ _ _ _ Hsp), Hrun. cbv zeta.
  change (0 =? 0) with true. cbv iota. fold s1.
  split; [|split].
  - intros Hlen Hhex.
    assert (Htrail : Py.last_chars 16 (Py.chars (Py.strip rout)) = v)
      by (apply last_chars_short; fold v; lia).
    rewrite decode_hashrange_hex; rewrite Htrail;
      [done| by (intros E; rewrite E in Hlen; simpl in Hlen; lia) | done].
  - intros Hv. rewrite decode_hashrange_eq. fold v. rewrite Hv. done.
  - rewrite decode_hashrange_eq. cbv zeta.
    repeat case_match; simplify_eq; eauto.
Qed.

(** C7, as the code has it: when the command fails (a return code other
    than 0), [get_hashrange] returns [None], without an error of its own,
    and no access through the brick directory returns a range. *)
Theorem get_hashrange_command_failed path host fqpath rcode rout s :
  Py.split ":" path = [host; fqpath] ->
  g_run G (length (runs s)) host (hashrange_command fqpath) = (rcode, rout) ->
  rcode <> 0 ->
  get_hashrange G path s =
    (Ok None, after_run s host (hashrange_command fqpath)) /\
  (forall b, _path b = path -> _hashrange b = None ->
     (forall b' s', _get_hashrange G b s <> (Ok b', s')) /\
     (forall r s', hashrange G b s <> (Ok r, s')) /\
     (forall r s', hashrange_low G b s <> (Ok r, s')) /\
     (forall r s', hashrange_high G b s <> (Ok r, s')) /\
     (forall h r s', hashrange_contains_hash G b h s <> (Ok r, s'))).
Proof.
  intros Hsp Hrun Hrc.
  assert (Hget : get_hashrange G path s =
                 (Ok None, after_run s host (hashrange_command fqpath))).
  { rewrite (get_hashrange_eq _ _ _ _ Hsp), Hrun. cbv zeta.
    apply Z.eqb_neq in Hrc. by rewrite Hrc. }
  split; [done|]. intros b Hb Hnone.
  assert (Hfetch : _get_hashrange G b s =
                   (Raise TypeError,
                    after_run s host (hashrange_command fqpath))).
  { unfold _get_hashrange. rewrite Hb.
    by rewrite (bind_ok _ _ _ _ _ Hget). }
  repeat split; intros; unfold hashrange_low, hashrange_high, hashrange,
    hashrange_contains_hash, bind; rewrite ?Hnone, ?Hfetch; done.
Qed.

Lemma _get_hashrange_ok b s low high s1 :
  get_hashrange G (_path b) s = (Ok (Some (low, high)), s1) ->
  _get_hashrange G b s = (Ok (cached_brick b low high), s1).
Proof.
  intros H. unfold _get_hashrange. by rewrite (bind_ok _ _ _ _ _ H).
Qed.

(** Nothing is fetched for a brick directory whose cache is filled. *)
Lemma hashrange_resolved b s :
  is_resolved b = true ->
  hashrange G b s = (Ok (b, (_hashrange_low b, _hashrange_high b)), s) /\
  hashrange_low G b s = (Ok (b, _hashrange_low b), s) /\
  hashrange_high G b s = (Ok (b, _hashrange_high b), s).
Proof.
  unfold is_resolved. intros H.
  destruct (_hashrange b) eqn:E1, (_hashrange_low b) eqn:E2,
    (_hashrange_high b) eqn:E3; try done.
  unfold hashrange_low, hashrange_high, hashrange, bind, ret.
  rewrite E1. simpl. rewrite E2, E3. simpl. by rewrite ?E2, ?E3.
Qed.

Lemma cached_brick_resolved b low high :
  is_resolved (cached_brick b low high) = true.
Proof. done. Qed.

(** C8: the first access of [hashrange] on a brick directory with an empty
    cache fetches the range with one command; every later access returns
    the same pair and issues no command, whatever the remote side has
    become; [resync_hashrange] clears the cache and fetches again, and the
    pair it fetched is what later accesses return. *)
Theorem hashrange_fetched_once b s low high s1 :
  _hashrange b = None ->
  get_hashrange G (_path b) s = (Ok (Some (low, high)), s1) ->
  let b1 := cached_brick b low high in
  hashrange G b s = (Ok (b1, (Some low, Some high)), s1) /\
  (exists host fqpath, s1 = after_run s host (hashrange_command fqpath)) /\
  (forall s2,
     hashrange G b1 s2 = (Ok (b1, (Some low, Some high)), s2) /\
     hashrange_low G b1 s2 = (Ok (b1, Some low), s2) /\
     hashrange_high G b1 s2 = (Ok (b1, Some high), s2)) /\
  (forall s2 low' high' s3,
     get_hashrange G (_path b) s2 = (Ok (Some (low', high')), s3) ->
     let b2 := cached_brick b low' high' in
     resync_hashrange G b1 s2 = (Ok b2, s3) /\
     (exists host fqpath,
        s3 = after_run s2 host (hashrange_command fqpath)) /\
     (forall s4, hashrange G b2 s4 = (Ok (b2, (Some low', Some high')), s4))).
Proof.
  intros Hnone Hget b1. split; [|split; [|split]].
  - unfold hashrange. rewrite Hnone.
    by rewrite (bind_ok _ _ _ _ _ (_get_hashrange_ok _ _ _ _ _ Hget)).
  - apply get_hashrange_one_command in Hget as (host & fqpath & _ & ->).
    eauto.
  - intros s2.
    apply (hashrange_resolved b1 s2 (cached_brick_resolved _ _ _)).
  - intros s2 low' high' s3 Hget' b2. split; [|split].
    + unfold resync_hashrange.
      erewrite _get_hashrange_ok; [reflexivity|exact Hget'].
    + apply get_hashrange_one_command in Hget' as (host & fqpath & _ & ->).
      eauto.
    + intros s4.
      apply (hashrange_resolved _ s4 (cached_brick_resolved b low' high')).
Qed.

End BrickDirFacts.


(** ** Computations that leave the instrumentation alone *)

Lemma keeps_trace_ret {A} (a : A) : keeps_trace (ret a).
Proof. intros s r s' [= _ <-]. done. Qed.

Lemma keeps_trace_raise {A} e : keeps_trace (@raise A e).
Proof. intros s r s' [= _ <-]. done. Qed.

Lemma keeps_trace_bind {A B} (m : M A) (f : A -> M B) :
  keeps_trace m -> (forall a, keeps_trace (f a)) -> keeps_trace (bind m f).
Proof.
  intros Hm Hf s r s'. unfold bind.
  destruct (m s) as [[a|e] s1] eqn:E.
  - intros H. rewrite (Hf _ _ _ _ H). eapply Hm, E.
  - intros [= _ <-]. eapply Hm, E.
Qed.

Lemma keeps_trace_run G host command : keeps_trace (run G host command).
Proof. intros s r s' [= _ <-]. done. Qed.

Lemma keeps_trace_unpack2 xs : keeps_trace (unpack2 xs).
Proof.
  destruct xs as [|x [|y [|z xs]]]; simpl;
    auto using @keeps_trace_ret, @keeps_trace_raise.
Qed.

Lemma keeps_trace_int16 l : keeps_trace (int16 l).
Proof.
  unfold int16. destruct (Py.int16 l);
    auto using @keeps_trace_ret, @keeps_trace_raise.
Qed.

Lemma keeps_trace_int_of o : keeps_trace (int_of o).
Proof.
  destruct o; simpl; auto using @keeps_trace_ret, @keeps_trace_raise.
Qed.

Lemma keeps_trace_for_each {A B} (body : B -> A -> M B) xs :
  (forall acc x, keeps_trace (body acc x)) ->
  forall acc, keeps_trace (for_each body xs acc).
Proof.
  intros Hb. induction xs as [|x xs IH]; intros acc; simpl.
  - apply keeps_trace_ret.
  - apply keeps_trace_bind; auto.
Qed.

Create HintDb trace discriminated.
#[local] Hint Resolve keeps_trace_ret keeps_trace_raise keeps_trace_run
  keeps_trace_unpack2 keeps_trace_int16 keeps_trace_int_of : trace.

(** Breaks a computation into its parts. *)
Ltac trace_steps :=
  repeat first
    [ solve [eauto with trace]
    | progress intros
    | progress cbv zeta
    | apply keeps_trace_bind
    | apply keeps_trace_for_each
    | match goal with
      | |- keeps_trace (match ?x with _ => _ end) => destruct x
      | |- keeps_trace (let '(_, _) := ?x in _) => destruct x
      | |- keeps_trace (if ?x then _ else _) => destruct x
      end ].

Section TraceFacts.
Context (G : Glusto).

Lemma keeps_trace_get_hashrange path :
  keeps_trace (brickdir.get_hashrange G path).
Proof. unfold brickdir.get_hashrange, brickdir.decode_hashrange. trace_steps. Qed.

Lemma keeps_trace__get_hashrange b :
  keeps_trace (brickdir._get_hashrange G b).
Proof.
  unfold brickdir._get_hashrange.
  pose proof keeps_trace_get_hashrange. trace_steps.
Qed.

Lemma keeps_trace_hashrange b : keeps_trace (brickdir.hashrange G b).
Proof.
  unfold brickdir.hashrange.
  pose proof keeps_trace__get_hashrange. trace_steps.
Qed.

Lemma keeps_trace_hashrange_low b : keeps_trace (brickdir.hashrange_low G b).
Proof.
  unfold brickdir.hashrange_low.
  pose proof keeps_trace__get_hashrange.
  pose proof keeps_trace_hashrange. trace_steps.
Qed.

Lemma keeps_trace_hashrange_high b :
  keeps_trace (brickdir.hashrange_high G b).
Proof.
  unfold brickdir.hashrange_high.
  pose proof keeps_trace__get_hashrange.
  pose proof keeps_trace_hashrange. trace_steps.
Qed.

Lemma keeps_trace_file_exists host fqpath :
  keeps_trace (glusterfile.file_exists G host fqpath).
Proof. unfold glusterfile.file_exists. trace_steps. Qed.

Lemma keeps_trace_get_pathinfo host fqpath :
  keeps_trace (glusterfile.get_pathinfo G host fqpath).
Proof.
  unfold glusterfile.get_pathinfo, glusterfile.get_fattr. trace_steps.
Qed.

Lemma keeps_trace_hashed_bricks_step self b paths :
  keeps_trace (glusterfile.hashed_bricks_step G self b paths).
Proof.
  unfold glusterfile.hashed_bricks_step.
  pose proof keeps_trace_hashrange_low.
  pose proof keeps_trace_hashrange_high. trace_steps.
Qed.

Lemma keeps_trace_hashed_bricks_loop bricks :
  forall self paths,
    keeps_trace (glusterfile.hashed_bricks_loop G self bricks paths).
Proof.
  pose proof keeps_trace_hashed_bricks_step.
  induction bricks as [|b bricks IH]; intros self paths; simpl; trace_steps.
Qed.

End TraceFacts.

(** ** glusterfile.py: placement resolution *)

Section PlacementFacts.
Context (G : Glusto).

Lemma _get_hashrange_inv b s b' s' :
  brickdir._get_hashrange G b s = (Ok b', s') ->
  exists low high, b' = cached_brick b low high.
Proof.
  unfold brickdir._get_hashrange. intros H.
  apply bind_inv_ok in H as ([[low high]|] & s1 & _ & H); [|done].
  exists low, high. by inversion H.
Qed.

(** The cache is empty after the constructor and filled after a fetch, so
    [cache_ok] holds in every state the methods of [BrickDir] lead to. *)
Lemma cache_ok_init path s b s' :
  brickdir.__init__ path s = (Ok b, s') -> cache_ok b = true.
Proof.
  unfold brickdir.__init__. intros H.
  apply bind_inv_ok in H as ([host fqpath] & s1 & _ & H).
  by inversion H.
Qed.

Lemma cache_ok_fetched b s b' s' :
  brickdir._get_hashrange G b s = (Ok b', s') \/
  brickdir.resync_hashrange G b s = (Ok b', s') ->
  is_resolved b' = true /\ cache_ok b' = true.
Proof.
  intros [H|H]; apply _get_hashrange_inv in H as (low & high & ->); done.
Qed.

(** Reading both bounds of a brick directory whose cache is empty or
    filled: the bounds read are the ones the cache holds afterwards, and
    nothing is fetched when the cache was filled. *)
Lemma read_bounds b s b1 lo s1 b2 hi s2 :
  cache_ok b = true ->
  brickdir.hashrange_low G b s = (Ok (b1, lo), s1) ->
  brickdir.hashrange_high G b1 s1 = (Ok (b2, hi), s2) ->
  b2 = b1 /\ s2 = s1 /\ is_resolved b1 = true /\
  lo = Some (low_of b1) /\ hi = Some (high_of b1) /\
  brickdir._path b1 = brickdir._path b /\
  (is_resolved b = true -> b1 = b /\ s1 = s).
Proof.
  intros Hok Hlow Hhigh.
  assert (H1 : is_resolved b1 = true /\ lo = brickdir._hashrange_low b1 /\
               brickdir._path b1 = brickdir._path b /\
               (is_resolved b = true -> b1 = b /\ s1 = s)).
  { destruct (is_resolved b) eqn:Hres.
    - destruct (hashrange_resolved G b s Hres) as (_ & Hl & _).
      rewrite Hl in Hlow. by simplify_eq.
    - unfold cache_ok in Hok. rewrite Hres in Hok.
      destruct (brickdir._hashrange b) eqn:Hnone; [done|]. clear Hok.
      rename Hnone into Hok.
      unfold brickdir.hashrange_low, brickdir.hashrange in Hlow.
      rewrite Hok in Hlow. unfold bind in Hlow.
      destruct (brickdir._get_hashrange G b s) as [[b'|e] s'] eqn:Hget;
        [|done].
      apply _get_hashrange_inv in Hget as (low & high & ->).
      unfold ret in Hlow. simpl in Hlow. by simplify_eq. }
  destruct H1 as (Hres1 & -> & Hpath & Hsame).
  destruct (hashrange_resolved G b1 s1 Hres1) as (_ & _ & Hh).
  rewrite Hh in Hhigh. injection Hhigh as Hb2 Hhi Hs2. subst b2 hi s2.
  pose proof Hres1 as Hres1'. unfold is_resolved in Hres1. unfold low_of, high_of.
  by destruct (brickdir._hashrange b1), (brickdir._hashrange_low b1),
    (brickdir._hashrange_high b1).
Qed.

Lemma calculated_hash_idem self :
  glusterfile.calculated_hash G (glusterfile.calculated_hash G self).1 =
  glusterfile.calculated_hash G self.
Proof.
  unfold glusterfile.calculated_hash.
  destruct (glusterfile._calculated_hash self) eqn:E; simpl; by rewrite ?E.
Qed.

(** One round of the loop: the brick directory is resolved afterwards and
    its path is appended exactly when the hash is strictly inside. *)
Lemma hashed_bricks_step_inv self b paths s self' b' paths' s' :
  cache_ok b = true ->
  glusterfile.hashed_bricks_step G self b paths s =
    (Ok (self', b', paths'), s') ->
  let h := (glusterfile.calculated_hash G self).2 in
  self' = (glusterfile.calculated_hash G self).1 /\
  is_resolved b' = true /\
  brickdir._path b' = brickdir._path b /\
  paths' = paths ++ (if owns h b' then [brickdir.path b'] else []) /\
  (is_resolved b = true -> b' = b /\ s' = s).
Proof.
  intros Hok H h. unfold glusterfile.hashed_bricks_step in H.
  apply bind_inv_ok in H as ([b1 lo] & s1 & Hlow & H).
  apply bind_inv_ok in H as ([b2 hi] & s2 & Hhigh & H).
  destruct (read_bounds _ _ _ _ _ _ _ _ Hok Hlow Hhigh)
    as (-> & -> & Hres & -> & -> & Hpath & Hsame).
  destruct (glusterfile.calculated_hash G self) as [self1 h1] eqn:Hh.
  subst h. simpl in H |- *. unfold bind, ret in H. simpl in H.
  unfold owns.
  destruct (low_of b1 <? h1) eqn:E1;
    [destruct (h1 <? high_of b1) eqn:E2|];
    simplify_eq; rewrite ?E1, ?E2; simpl; rewrite ?app_nil_r; done.
Qed.

(** The same round when the cache is filled: it returns. *)
Lemma hashed_bricks_step_resolved self b paths s :
  is_resolved b = true ->
  let h := (glusterfile.calculated_hash G self).2 in
  glusterfile.hashed_bricks_step G self b paths s =
    (Ok ((glusterfile.calculated_hash G self).1, b,
         paths ++ (if owns h b then [brickdir.path b] else [])), s).
Proof.
  intros Hres h. unfold glusterfile.hashed_bricks_step.
  destruct (hashrange_resolved G b s Hres) as (_ & Hl & Hh).
  rewrite (bind_ok _ _ _ _ _ Hl). cbv beta iota.
  rewrite (bind_ok _ _ _ _ _ Hh). cbv beta iota.
  destruct (glusterfile.calculated_hash G self) as [self1 h1] eqn:Hc.
  subst h. simpl. unfold is_resolved in Hres. unfold owns, low_of, high_of.
  destruct (brickdir._hashrange b), (brickdir._hashrange_low b) as [lo|],
    (brickdir._hashrange_high b) as [hi|]; try done.
  unfold bind, ret. simpl.
  destruct (lo <? h1); simpl; [destruct (h1 <? hi)|];
    by rewrite ?app_nil_r.
Qed.

Lemma hashed_bricks_loop_inv bricks :
  forall self paths s self' bricks' paths' s',
    Forall (fun b => cache_ok b = true) bricks ->
    glusterfile.hashed_bricks_loop G self bricks paths s =
      (Ok (self', bricks', paths'), s') ->
    let h := (glusterfile.calculated_hash G self).2 in
    Forall (fun b => is_resolved b = true) bricks' /\
    brickdir._path <$> bricks' = brickdir._path <$> bricks /\
    paths' = paths ++ (brickdir.path <$> filter (fun b => owns h b = true) bricks') /\
    (Forall (fun b => is_resolved b = true) bricks ->
     bricks' = bricks /\ s' = s).
Proof.
  induction bricks as [|b bricks IH];
    intros self paths s self' bricks' paths' s' Hok H h.
  - simpl in H. inversion H; subst. by rewrite app_nil_r.
  - simpl in H. inversion Hok as [|? ? Hb Hbs]; subst.
    apply bind_inv_ok in H as ([[self1 b1] paths1] & s1 & Hstep & H).
    apply bind_inv_ok in H as ([[self2 bricks2] paths2] & s2 & Hloop & H).
    inversion H; subst; clear H.
    destruct (hashed_bricks_step_inv _ _ _ _ _ _ _ _ Hb Hstep)
      as (-> & Hres1 & Hp1 & -> & Hsame1).
    destruct (IH _ _ _ _ _ _ _ Hbs Hloop) as (Hres2 & Hp2 & -> & Hsame2).
    rewrite calculated_hash_idem. fold h.
    split; [by constructor|]. split; [by rewrite !fmap_cons, Hp1, Hp2|].
    split.
    + rewrite filter_cons. destruct (owns h b1) eqn:Ho.
      * rewrite decide_True by done. by rewrite fmap_cons, <- app_assoc.
      * rewrite decide_False by (by intros ?). by rewrite app_nil_r.
    + intros Hall. inversion Hall; subst.
      destruct Hsame1 as [-> ->]; [done|].
      destruct Hsame2 as [-> ->]; done.
Qed.

Lemma hashed_bricks_loop_resolved bricks :
  forall self paths s,
    Forall (fun b => is_resolved b = true) bricks ->
    exists self',
      glusterfile.hashed_bricks_loop G self bricks paths s =
        (Ok (self', bricks,
             paths ++ (brickdir.path <$>
                       filter (fun b =>
                                 owns (glusterfile.calculated_hash G self).2 b
                                 = true) bricks)), s) /\
      glusterfile._parent_dir_layout self' =
        glusterfile._parent_dir_layout self.
Proof.
  induction bricks as [|b bricks IH]; intros self paths s Hall.
  - exists self. simpl. by rewrite app_nil_r.
  - inversion Hall as [|? ? Hb Hbs]; subst. simpl.
    rewrite (bind_ok _ _ _ _ _ (hashed_bricks_step_resolved _ _ _ _ Hb)).
    cbv beta iota.
    destruct (IH (glusterfile.calculated_hash G self).1
                (paths ++ (if owns (glusterfile.calculated_hash G self).2 b
                           then [brickdir.path b] else [])) s Hbs)
      as (self' & Hloop & Hlay).
    rewrite (bind_ok _ _ _ _ _ Hloop). cbv beta iota.
    exists self'. rewrite calculated_hash_idem. split.
    + unfold ret. do 2 f_equal. rewrite filter_cons.
      destruct (owns _ b) eqn:Ho.
      * rewrite decide_True by done. by rewrite fmap_cons, <- app_assoc.
      * rewrite decide_False by (by intros ?). by rewrite app_nil_r.
    + rewrite Hlay. unfold glusterfile.calculated_hash.
      by destruct (glusterfile._calculated_hash self).
Qed.

End PlacementFacts.

Section HashedBricks.
Context (E : Env).

Lemma owns_spec h b : owns h b = true <-> low_of b < h < high_of b.
Proof. unfold owns. rewrite andb_true_iff, !Z.ltb_lt. done. Qed.

Lemma contains_spec h b : contains h b = true <-> low_of b <= h <= high_of b.
Proof. unfold contains. rewrite andb_true_iff, !Z.leb_le. done. Qed.

Lemma no_owner h (bricks : list brickdir.BrickDir) :
  (forall b, b ∈ bricks -> ~ low_of b < h < high_of b) ->
  filter (fun b => owns h b = true) bricks = [].
Proof.
  intros H. induction bricks as [|b bricks IH]; [done|].
  rewrite filter_cons, decide_False.
  - apply IH. intros b' Hb'. apply H. by right.
  - rewrite owns_spec. apply H. by left.
Qed.

Lemma parent_dir_layout_cached self layout s :
  glusterfile._parent_dir_layout self = Some layout ->
  glusterfile.parent_dir_layout E self s = (Ok (self, layout), s).
Proof. intros H. unfold glusterfile.parent_dir_layout. by rewrite H. Qed.

(** Looking the layout up leaves the cached hash of the file alone. *)
Lemma parent_dir_layout_hash self s self1 layout s1 :
  glusterfile.parent_dir_layout E self s = (Ok (self1, layout), s1) ->
  glusterfile.calculated_hash E self1 =
    (glusterfile.set_parent_dir_layout
       (glusterfile.calculated_hash E self).1 layout,
     (glusterfile.calculated_hash E self).2) \/
  self1 = self.
Proof.
  unfold glusterfile.parent_dir_layout.
  destruct (glusterfile._parent_dir_layout self) eqn:Hl.
  - intros [= -> -> ->]. by right.
  - intros H. left.
    apply bind_inv_ok in H as (pathinfo & s2 & _ & H).
    apply bind_inv_ok in H as (layout' & s3 & _ & H).
    inversion H; subst. unfold glusterfile.calculated_hash. simpl.
    by destruct (glusterfile._calculated_hash self).
Qed.

Lemma parent_dir_layout_hash_value self s self1 layout s1 :
  glusterfile.parent_dir_layout E self s = (Ok (self1, layout), s1) ->
  (glusterfile.calculated_hash E self1).2 =
  (glusterfile.calculated_hash E self).2.
Proof.
  intros H. destruct (parent_dir_layout_hash _ _ _ _ _ H) as [-> | ->]; done.
Qed.

(** With the ranges resolved, the placement resolution returns and nothing
    is fetched. *)
Lemma hashed_bricks_on_resolved self s self1 layout s1 :
  glusterfile.parent_dir_layout E self s = (Ok (self1, layout), s1) ->
  Forall (fun b => is_resolved b = true) (layout.brickdirs layout) ->
  exists self',
    glusterfile.hashed_bricks E self s =
      (Ok (self',
           brickdir.path <$>
             filter (fun b =>
                       owns (glusterfile.calculated_hash E self).2 b = true)
               (layout.brickdirs layout)),
       s1).
Proof.
  intros Hlay Hres.
  pose proof (parent_dir_layout_hash_value _ _ _ _ _ Hlay) as Hh.
  unfold glusterfile.hashed_bricks.
  rewrite (bind_ok _ _ _ _ _ Hlay). cbv beta iota.
  destruct (hashed_bricks_loop_resolved E _ self1 [] s1 Hres)
    as (self2 & Hloop & _).
  rewrite (bind_ok _ _ _ _ _ Hloop). cbv beta iota.
  rewrite Hh. eexists. reflexivity.
Qed.

(** C1: [hashed_bricks] returns the paths of exactly the brick directories
    of the parent layout whose resolved range has the hash strictly
    between low and high, in the order of the layout.  A hash equal to
    the low or the high bound of a brick directory and strictly outside
    the ranges of all the others has no owner: the list is empty.  When
    the ranges are resolved already, the result is produced and nothing
    is fetched. *)
Theorem hashed_bricks_strict_interval self s self1 layout s1 :
  glusterfile.parent_dir_layout E self s = (Ok (self1, layout), s1) ->
  Forall (fun b => cache_ok b = true) (layout.brickdirs layout) ->
  let h := (glusterfile.calculated_hash E self).2 in
  (forall self' paths s',
     glusterfile.hashed_bricks E self s = (Ok (self', paths), s') ->
     exists bricks,
       glusterfile._parent_dir_layout self' =
         Some (layout.set_brickdirs layout bricks) /\
       brickdir._path <$> bricks =
         brickdir._path <$> layout.brickdirs layout /\
       Forall (fun b => is_resolved b = true) bricks /\
       paths = brickdir.path <$> filter (fun b => owns h b = true) bricks /\
       (forall b, b ∈ filter (fun b => owns h b = true) bricks <->
                  b ∈ bricks /\ low_of b < h < high_of b) /\
       (forall b0, b0 ∈ bricks -> h = low_of b0 \/ h = high_of b0 ->
          (forall b, b ∈ bricks -> b <> b0 ->
                     h < low_of b \/ high_of b < h) ->
          paths = [])) /\
  (Forall (fun b => is_resolved b = true) (layout.brickdirs layout) ->
   exists self',
     glusterfile.hashed_bricks E self s =
       (Ok (self',
            brickdir.path <$>
              filter (fun b => owns h b = true) (layout.brickdirs layout)),
        s1)).
Proof.
  intros Hlay Hok h.
  pose proof (parent_dir_layout_hash_value _ _ _ _ _ Hlay) as Hh.
  split.
  - intros self' paths s' H. unfold glusterfile.hashed_bricks in H.
    rewrite (bind_ok _ _ _ _ _ Hlay) in H. cbv beta iota in H.
    apply bind_inv_ok in H as ([[self2 bricks] paths2] & s2 & Hloop & H).
    inversion H; subst self' paths s'; clear H.
    destruct (hashed_bricks_loop_inv E _ _ _ _ _ _ _ _ Hok Hloop)
      as (Hres & Hpaths & -> & _).
    rewrite Hh. fold h. exists bricks.
    split; [done|]. split; [done|]. split; [done|]. split; [done|]. split.
    + intros b. rewrite list_elem_of_filter, owns_spec. tauto.
    + intros b0 Hb0 Hbound Hothers. simpl. rewrite no_owner; [done|].
      intros b Hb Hin. destruct (Hothers b Hb); [|lia..].
      intros ->. lia.
  - intros Hres. subst h.
    exact (hashed_bricks_on_resolved _ _ _ _ _ Hlay Hres).
Qed.

(** C9: on a brick directory with a resolved range,
    [hashrange_contains_hash] holds exactly when low <= hash <= high, both
    bounds included, whereas [hashed_bricks] lists the brick directory
    exactly when low < hash < high; the two answers differ exactly when
    the hash is the low or the high bound of a non-empty range. *)
Theorem hashrange_contains_hash_inclusive b h s :
  is_resolved b = true ->
  brickdir.hashrange_contains_hash E b h s = (Ok (b, contains h b), s) /\
  (contains h b = true <-> low_of b <= h <= high_of b) /\
  (forall self layout,
     glusterfile._parent_dir_layout self = Some layout ->
     layout.brickdirs layout = [b] ->
     (glusterfile.calculated_hash E self).2 = h ->
     exists self',
       glusterfile.hashed_bricks E self s =
         (Ok (self', if owns h b then [brickdir.path b] else []), s)) /\
  (owns h b = true <-> low_of b < h < high_of b) /\
  (contains h b <> owns h b <->
   (h = low_of b \/ h = high_of b) /\ low_of b <= high_of b).
Proof.
  intros Hres. split; [|split; [|split; [|split]]].
  - unfold is_resolved in Hres.
    destruct (brickdir._hashrange b) eqn:E1,
      (brickdir._hashrange_low b) eqn:E2,
      (brickdir._hashrange_high b) eqn:E3; try done.
    unfold brickdir.hashrange_contains_hash, contains, low_of, high_of,
      bind, ret.
    rewrite E1. simpl. rewrite E2. simpl.
    destruct (z <=? h); simpl; [by rewrite E3|done].
  - apply contains_spec.
  - intros self layout Hlay Hbricks Hhash.
    pose proof (parent_dir_layout_cached _ _ s Hlay) as Hpl.
    assert (Hall : Forall (fun b => is_resolved b = true)
                     (layout.brickdirs layout))
      by (rewrite Hbricks; by repeat constructor).
    destruct (hashed_bricks_on_resolved _ _ _ _ _ Hpl Hall) as (self' & ->).
    exists self'.
    rewrite Hbricks, Hhash, filter_cons, filter_nil.
    destruct (owns h b) eqn:Ho.
    + by rewrite decide_True.
    + by rewrite decide_False by (by intros ?).
  - apply owns_spec.
  - unfold contains, owns.
    destruct (Z.leb_spec (low_of b) h), (Z.leb_spec h (high_of b)),
      (Z.ltb_spec (low_of b) h), (Z.ltb_spec h (high_of b)); simpl;
      split; intros Hd;
      first [done | lia | (exfalso; lia) | (exfalso; by apply Hd)].
Qed.

(** C10: when the list of hashed bricks of an entry is empty,
    [exists_on_hashed_bricks] is [True] without any existence check, and
    [run_hashed_bricks_test] returns [True] instead of raising. *)
Theorem exists_on_hashed_bricks_vacuous self s self' s' :
  glusterfile.hashed_bricks E self s = (Ok (self', []), s') ->
  glusterfile.exists_on_hashed_bricks E self s = (Ok (self', true), s') /\
  dht_test_utils.run_hashed_bricks_test E self s = (Ok (self', true), s').
Proof.
  intros H.
  assert (Hex : glusterfile.exists_on_hashed_bricks E self s =
                (Ok (self', true), s')).
  { unfold glusterfile.exists_on_hashed_bricks.
    by rewrite (bind_ok _ _ _ _ _ H). }
  split; [done|]. unfold dht_test_utils.run_hashed_bricks_test.
  by rewrite (bind_ok _ _ _ _ _ Hex).
Qed.

End HashedBricks.

(** ** dht_test_utils.py: the layout tests *)

Section LayoutTests.
Import constants.
Context (E : Env).

Lemma run_layout_tests_eq fqpath layout test_type s :
  dht_test_utils.run_layout_tests E fqpath layout test_type s =
    (if truthy (Z.land test_type (TEST_LAYOUT_IS_COMPLETE (k E))) &&
        negb (layout.is_complete layout)
     then Raise (LayoutIsNotCompleteException (not_complete_msg fqpath))
     else if truthy (Z.land test_type (TEST_LAYOUT_IS_BALANCED (k E))) &&
             negb (layout.is_balanced layout)
     then Raise (LayoutIsNotBalancedException (not_balanced_msg fqpath))
     else Ok true,
     {| runs := runs s; trace := EvLayoutTests fqpath :: trace s |}).
Proof.
  unfold dht_test_utils.run_layout_tests, bind, emit, ret, raise.
  destruct (truthy (Z.land test_type (TEST_LAYOUT_IS_COMPLETE (k E)))),
    (layout.is_complete layout),
    (truthy (Z.land test_type (TEST_LAYOUT_IS_BALANCED (k E)))),
    (layout.is_balanced layout); reflexivity.
Qed.

(** C5, as the code has it: [run_layout_tests] raises
    [LayoutIsNotCompleteException] exactly when the completeness bit is set
    and the layout is not complete; otherwise it raises
    [LayoutIsNotBalancedException] exactly when the balance bit is set and
    the layout is not balanced; otherwise it returns [True].  The
    exception carries one message, made of the path alone: two layouts
    with the same two booleans give the same outcome, whatever their
    holes and overlaps. *)
Theorem run_layout_tests_outcome fqpath layout test_type s :
  let complete_bit :=
    truthy (Z.land test_type (TEST_LAYOUT_IS_COMPLETE (k E))) in
  let balanced_bit :=
    truthy (Z.land test_type (TEST_LAYOUT_IS_BALANCED (k E))) in
  let incomplete := complete_bit && negb (layout.is_complete layout) in
  let unbalanced := balanced_bit && negb (layout.is_balanced layout) in
  let r := (dht_test_utils.run_layout_tests E fqpath layout test_type s).1 in
  ((exists msg, r = Raise (LayoutIsNotCompleteException msg)) <->
   incomplete = true) /\
  ((exists msg, r = Raise (LayoutIsNotBalancedException msg)) <->
   incomplete = false /\ unbalanced = true) /\
  (r = Ok true <-> incomplete = false /\ unbalanced = false) /\
  (forall e, r = Raise e ->
     exn_msg e = Some (not_complete_msg fqpath) \/
     exn_msg e = Some (not_balanced_msg fqpath)) /\
  (forall layout',
     layout.is_complete layout' = layout.is_complete layout ->
     layout.is_balanced layout' = layout.is_balanced layout ->
     dht_test_utils.run_layout_tests E fqpath layout' test_type s =
     dht_test_utils.run_layout_tests E fqpath layout test_type s).
Proof.
  intros complete_bit balanced_bit incomplete unbalanced r.
  subst r. rewrite run_layout_tests_eq. fold complete_bit balanced_bit.
  fold incomplete unbalanced. simpl.
  split; [|split; [|split; [|split]]].
  - destruct incomplete, unbalanced; split;
      first [by intros [? ?] | by eauto].
  - destruct incomplete, unbalanced; split;
      first [by intros [? ?] | by intros [? ?] | by eauto].
  - destruct incomplete, unbalanced; split;
      first [done | by intros [? ?]].
  - intros e. destruct incomplete, unbalanced; intros [= <-]; simpl; eauto.
  - intros layout' Hc Hb. rewrite !run_layout_tests_eq, Hc, Hb. done.
Qed.

End LayoutTests.

(** ** dht_test_utils.py: the traversal *)

Section Traversal.
Import constants.
Context (E : Env).

Lemma bind_ext {A B} (m m' : M A) (f f' : A -> M B) s :
  m s = m' s -> (forall a s1, f a s1 = f' a s1) ->
  bind m f s = bind m' f' s.
Proof.
  intros Hm Hf. unfold bind. rewrite Hm.
  destruct (m' s) as [[a|e] s1]; [apply Hf|done].
Qed.

Lemma for_each_app {A B} (body : B -> A -> M B) xs ys acc s :
  for_each body (xs ++ ys) acc s =
  bind (for_each body xs acc) (for_each body ys) s.
Proof.
  revert acc s. induction xs as [|x xs IH]; intros acc s; simpl.
  - done.
  - unfold bind in *.
    destruct (body acc x s) as [[acc'|e] s1]; [apply IH|done].
Qed.

Lemma for_each_fmap {A A' B} (g : A -> A') (body : B -> A' -> M B) xs acc s :
  for_each body (g <$> xs) acc s =
  for_each (fun acc x => body acc (g x)) xs acc s.
Proof.
  revert acc s. induction xs as [|x xs IH]; intros acc s; simpl; [done|].
  apply bind_ext; [done|]. intros a s1. apply IH.
Qed.

Lemma for_each_nil_ret {A B} (body : B -> A -> M B) acc s :
  for_each body [] acc s = (Ok acc, s).
Proof. done. Qed.

(** The three nested loops go through [entries_of] in order. *)
Lemma walk_is_check_entries host file_type test_type walks :
  forall cache s,
    for_each (dht_test_utils.check_walkies E host file_type test_type)
      walks cache s =
    check_entries E host test_type
      (flat_map
         (fun '(root, dirs, files) =>
            (if truthy (Z.land file_type (FILETYPE_DIR (k E)))
             then pair root <$> dirs else []) ++
            (if truthy (Z.land file_type (FILETYPE_FILE (k E)))
             then pair root <$> files else []))
         walks) cache s.
Proof.
  induction walks as [|[[root dirs] files] walks IH]; intros cache s;
    [done|].
  simpl. unfold check_entries in *. rewrite for_each_app.
  apply bind_ext; [|intros; apply IH].
  unfold dht_test_utils.check_walkies. rewrite for_each_app.
  apply bind_ext.
  - destruct (truthy (Z.land file_type (FILETYPE_DIR (k E)))); [|done].
    by rewrite for_each_fmap.
  - intros c s1.
    destruct (truthy (Z.land file_type (FILETYPE_FILE (k E)))); [|done].
    by rewrite for_each_fmap.
Qed.

Lemma validate_files_in_dir_eq host rootdir file_type test_type s :
  dht_test_utils.validate_files_in_dir E host rootdir file_type test_type s =
  bind (check_entries E host test_type
          (entries_of E host rootdir file_type) ∅)
       (fun _ => ret true) s.
Proof.
  unfold dht_test_utils.validate_files_in_dir, entries_of.
  apply bind_ext; [|done].
  apply walk_is_check_entries.
Qed.

Lemma check_entries_cons host test_type e entries cache s :
  check_entries E host test_type (e :: entries) cache s =
  bind (dht_test_utils.check_entry E host test_type e.1 cache e.2)
       (check_entries E host test_type entries) s.
Proof. done. Qed.

(** A run of checks that raises stopped at its first failing entry. *)
Lemma check_entries_raise host test_type entries :
  forall cache s x s2,
    check_entries E host test_type entries cache s = (Raise x, s2) ->
    exists pre e post cache1 s1,
      entries = pre ++ e :: post /\
      check_entries E host test_type pre cache s = (Ok cache1, s1) /\
      dht_test_utils.check_entry E host test_type e.1 cache1 e.2 s1 =
        (Raise x, s2).
Proof.
  induction entries as [|e entries IH]; intros cache s x s2 H; [done|].
  rewrite check_entries_cons in H.
  apply bind_inv_raise in H as [H | (cache1 & s1 & Hone & H)].
  - exists [], e, entries, cache, s. done.
  - destruct (IH _ _ _ _ H) as (pre & e' & post & c & s' & -> & Hpre & He).
    exists (e :: pre), e', post, c, s'. split; [done|]. split; [|done].
    rewrite check_entries_cons. by rewrite (bind_ok _ _ _ _ _ Hone).
Qed.

(** C4, as the code has it: the traversal has one failure policy.  The
    first check that raises ends the call: its exception is the outcome,
    the state is the one it left, and no later entry is examined.  A call
    that raises did so at its first failing entry, and a call that
    returns went through every entry without a failure. *)
Theorem validate_files_in_dir_fail_fast host rootdir file_type test_type s :
  let entries := entries_of E host rootdir file_type in
  let outcome :=
    dht_test_utils.validate_files_in_dir E host rootdir file_type test_type s
  in
  (forall pre e post cache1 s1 x s2,
     entries = pre ++ e :: post ->
     check_entries E host test_type pre ∅ s = (Ok cache1, s1) ->
     dht_test_utils.check_entry E host test_type e.1 cache1 e.2 s1 =
       (Raise x, s2) ->
     outcome = (Raise x, s2)) /\
  (forall x s2,
     outcome = (Raise x, s2) ->
     exists pre e post cache1 s1,
       entries = pre ++ e :: post /\
       check_entries E host test_type pre ∅ s = (Ok cache1, s1) /\
       dht_test_utils.check_entry E host test_type e.1 cache1 e.2 s1 =
         (Raise x, s2)) /\
  (forall r s2,
     outcome = (Ok r, s2) ->
     r = true /\
     exists cache1,
       check_entries E host test_type entries ∅ s = (Ok cache1, s2)).
Proof.
  intros entries outcome. subst outcome.
  rewrite validate_files_in_dir_eq. fold entries.
  split; [|split].
  - intros pre e post cache1 s1 x s2 -> Hpre He.
    apply bind_raise. unfold check_entries in *. rewrite for_each_app.
    rewrite (bind_ok _ _ _ _ _ Hpre). simpl.
    by rewrite (bind_raise _ _ _ _ _ He).
  - intros x s2 H.
    apply bind_inv_raise in H as [H | (c & s1 & _ & H)]; [|done].
    by apply check_entries_raise.
  - intros r s2 H. apply bind_inv_ok in H as (c & s1 & Hc & H).
    inversion H; subst. eauto.
Qed.

End Traversal.

(** ** dht_test_utils.py: the layout cache *)

Section LayoutCache.
Import constants.
Context (E : Env).

Lemma count_event_app e tr1 tr2 :
  count_event e (tr1 ++ tr2) = (count_event e tr1 + count_event e tr2)%nat.
Proof. unfold count_event. by rewrite filter_app, length_app. Qed.

Lemma count_event_nil e : count_event e [] = 0%nat.
Proof. done. Qed.

Lemma count_event_cons e x tr :
  count_event e (x :: tr) =
  ((if decide (x = e) then 1 else 0) + count_event e tr)%nat.
Proof. unfold count_event. rewrite filter_cons. by case_decide. Qed.

Lemma Layout_trace parent pathinfo s layout s' :
  Layout E parent pathinfo s = (Ok layout, s') ->
  trace s' = EvLayout parent :: trace s.
Proof.
  unfold Layout, bind, emit, ret.
  destruct (Layout_new E pathinfo (runs s)) as [[l|e] log]; [|done].
  by intros [= _ <-].
Qed.

Lemma parent_dir_layout_trace self s self1 layout s1 :
  glusterfile._parent_dir_layout self = None ->
  glusterfile.parent_dir_layout E self s = (Ok (self1, layout), s1) ->
  trace s1 = EvLayout (glusterfile.parent_dir self) :: trace s.
Proof.
  intros Hnone H. unfold glusterfile.parent_dir_layout in H.
  rewrite Hnone in H.
  apply bind_inv_ok in H as (pathinfo & s2 & Hpi & H).
  apply bind_inv_ok in H as (l & s3 & Hl & H).
  inversion H; subst.
  rewrite (Layout_trace _ _ _ _ _ Hl).
  by rewrite (keeps_trace_get_pathinfo E _ _ _ _ _ Hpi).
Qed.

Lemma hashed_bricks_trace self s self' paths s' :
  glusterfile._parent_dir_layout self = None ->
  glusterfile.hashed_bricks E self s = (Ok (self', paths), s') ->
  trace s' = EvLayout (glusterfile.parent_dir self) :: trace s.
Proof.
  intros Hnone H. unfold glusterfile.hashed_bricks in H.
  apply bind_inv_ok in H as ([self1 layout] & s1 & Hlay & H).
  apply bind_inv_ok in H as ([[self2 bricks] paths2] & s2 & Hloop & H).
  inversion H; subst.
  rewrite (keeps_trace_hashed_bricks_loop E _ _ _ _ _ _ Hloop).
  by apply parent_dir_layout_trace in Hlay.
Qed.

Lemma run_hashed_bricks_test_trace self s r s' :
  glusterfile._parent_dir_layout self = None ->
  dht_test_utils.run_hashed_bricks_test E self s = (Ok r, s') ->
  trace s' = EvLayout (glusterfile.parent_dir self) :: trace s.
Proof.
  intros Hnone H. unfold dht_test_utils.run_hashed_bricks_test in H.
  apply bind_inv_ok in H as ([self1 found] & s1 & Hex & H).
  assert (s' = s1) as -> by (destruct (negb found); by inversion H).
  clear H. unfold glusterfile.exists_on_hashed_bricks in Hex.
  apply bind_inv_ok in Hex as ([self2 bricks] & s2 & Hhb & H).
  apply bind_inv_ok in H as (flag & s3 & Hloop & H).
  inversion H; subst.
  rewrite <- (hashed_bricks_trace _ _ _ _ _ Hnone Hhb).
  revert Hloop. apply keeps_trace_for_each.
  pose proof (keeps_trace_file_exists E). trace_steps.
Qed.

(** What the check of one entry adds to the instrumentation. *)
Lemma check_entry_trace host test_type root cache name s cache' s' :
  dht_test_utils.check_entry E host test_type root cache name s =
    (Ok cache', s') ->
  let p := entry_parent (root, name) in
  let hashed :=
    truthy (Z.land test_type (TEST_FILE_EXISTS_ON_HASHED_BRICKS (k E))) in
  let placement := if hashed then [EvLayout p] else [] in
  match cache !! p with
  | Some _ => cache' = cache /\ trace s' = placement ++ trace s
  | None =>
      (exists layout, cache' = <[p := layout]> cache) /\
      trace s' = placement ++ [EvLayoutTests p; EvLayout p] ++ trace s
  end.
Proof.
  intros H p hashed placement.
  unfold dht_test_utils.check_entry in H. cbv zeta in H.
  change (glusterfile.parent_dir
            (glusterfile.__init__ host (Py.join root name))) with p in H.
  apply bind_inv_ok in H as (cache1 & s1 & Hcache & H).
  fold hashed in H.
  assert (Hplace : cache' = cache1 /\ trace s' = placement ++ trace s1).
  { subst placement. destruct hashed.
    - apply bind_inv_ok in H as (r & s2 & Htest & H).
      inversion H; subst. split; [done|].
      by rewrite (run_hashed_bricks_test_trace
                    (glusterfile.__init__ host (Py.join root name))
                    _ _ _ eq_refl Htest).
    - by inversion H. }
  destruct Hplace as [-> Htr]. rewrite Htr.
  destruct (cache !! p) as [l|].
  - by inversion Hcache.
  - apply bind_inv_ok in Hcache as (pathinfo & s2 & Hpi & Hc).
    apply bind_inv_ok in Hc as (layout & s3 & Hl & Hc).
    apply bind_inv_ok in Hc as (r & s4 & Htests & Hc).
    inversion Hc; subst. split; [eauto|].
    rewrite run_layout_tests_eq in Htests. inversion Htests; subst. simpl.
    rewrite (Layout_trace _ _ _ _ _ Hl).
    by rewrite (keeps_trace_get_pathinfo E _ _ _ _ _ Hpi).
Qed.

Lemma check_entries_trace host test_type entries :
  let hashed :=
    truthy (Z.land test_type (TEST_FILE_EXISTS_ON_HASHED_BRICKS (k E))) in
  forall cache s cache' s',
    check_entries E host test_type entries cache s = (Ok cache', s') ->
    exists new,
      trace s' = new ++ trace s /\
      (forall p, is_Some (cache' !! p) <->
                 is_Some (cache !! p) \/ p ∈ entry_parent <$> entries) /\
      forall p,
        let tests := count_event (EvLayoutTests p) new in
        (cache !! p = None -> p ∈ entry_parent <$> entries -> tests = 1%nat) /\
        (is_Some (cache !! p) \/ p ∉ entry_parent <$> entries ->
         tests = 0%nat) /\
        count_event (EvLayout p) new =
          (tests +
           (if hashed
            then length (filter (fun e => entry_parent e = p) entries)
            else 0))%nat.
Proof.
  intros hashed. induction entries as [|e entries IH];
    intros cache s cache' s' H.
  - inversion H; subst. exists []. split; [done|]. split.
    + intros p. simpl. rewrite elem_of_nil. tauto.
    + intros p. simpl. rewrite elem_of_nil.
      split; [tauto|]. split; [done|]. by destruct hashed.
  - rewrite check_entries_cons in H.
    apply bind_inv_ok in H as (cache1 & s1 & Hone & Hrest).
    destruct e as [root name].
    apply check_entry_trace in Hone. cbv zeta in Hone. fold hashed in Hone.
    destruct (IH _ _ _ _ Hrest) as (new2 & Htr2 & Hdom2 & Hcount2).
    simpl fst in *. simpl snd in *.
    set (p0 := entry_parent (root, name)) in *.
    set (placement := if hashed then [EvLayout p0] else []) in *.
    assert (Hpl_tests : forall p,
              count_event (EvLayoutTests p) placement = 0%nat)
      by (intros p; subst placement; by destruct hashed).
    assert (Hpl_lay : forall p,
              count_event (EvLayout p) placement =
              if hashed then (if decide (p0 = p) then 1 else 0)%nat
              else 0%nat).
    { intros p. subst placement. destruct hashed; [|done].
      rewrite count_event_cons. case_decide; simplify_eq.
      - by rewrite decide_True.
      - rewrite decide_False; [done|]. by intros ->. }
    destruct (cache !! p0) as [l0|] eqn:Hp0.
    + destruct Hone as [-> Htr1].
      exists (new2 ++ placement). split; [by rewrite Htr2, Htr1, app_assoc|].
      split.
      * intros p. rewrite Hdom2, fmap_cons, elem_of_cons. fold p0.
        split; [tauto|]. intros [?|[->|?]]; eauto.
      * intros p. cbv zeta. rewrite !count_event_app, Hpl_tests, Hpl_lay.
        rewrite fmap_cons, elem_of_cons, filter_cons. fold p0.
        destruct (Hcount2 p) as (H1 & H0 & Hl). rewrite Hl.
        split; [|split].
        -- intros Hn [->|Hin]; [congruence|]. rewrite H1; done.
        -- intros [Hs|Hnot]; rewrite H0; eauto.
        -- destruct hashed; [|lia].
           case_decide; simpl; lia.
    + destruct Hone as [[l0 ->] Htr1].
      exists (new2 ++ placement ++ [EvLayoutTests p0; EvLayout p0]).
      split; [by rewrite Htr2, Htr1, <- !app_assoc|]. split.
      * intros p. rewrite Hdom2, fmap_cons, elem_of_cons. fold p0.
        destruct (decide (p = p0)) as [->|Hne].
        -- rewrite lookup_insert_eq. split; eauto.
        -- rewrite lookup_insert_ne by done. tauto.
      * intros p. cbv zeta.
        rewrite !count_event_app, Hpl_tests, Hpl_lay, !count_event_cons.
        rewrite !count_event_nil.
        rewrite fmap_cons, elem_of_cons, filter_cons. fold p0.
        destruct (Hcount2 p) as (H1 & H0 & Hl). rewrite Hl.
        set (n := count_event (EvLayoutTests p) new2) in *.
        destruct (decide (p = p0)) as [->|Hne].
        -- rewrite lookup_insert_eq in H0.
           assert (Hn : n = 0%nat) by (apply H0; eauto).
           repeat case_decide; simplify_eq; try done.
           split; [intros; lia|]. split.
           ++ rewrite Hp0. intros [[? Hs]|Hnot]; [done|].
              exfalso. apply Hnot. by left.
           ++ destruct hashed; simpl; lia.
        -- rewrite lookup_insert_ne in H1, H0 by done.
           repeat case_decide; simplify_eq; try done.
           split; [|split].
           ++ intros Hnone [->|Hin]; [done|]. specialize (H1 Hnone Hin). lia.
           ++ intros Hor. assert (n = 0%nat) by (apply H0; tauto). lia.
           ++ destruct hashed; lia.
Qed.

(** *** Calls that raise *)

Lemma tests_at_most_keeps {A} (m : M A) :
  keeps_trace m -> tests_at_most (fun _ => 0%nat) m.
Proof.
  intros Hm s r s' H. exists []. split; [by rewrite (Hm _ _ _ H)|done].
Qed.

Lemma tests_at_most_weaken {A} f g (m : M A) :
  (forall p, (f p <= g p)%nat) -> tests_at_most f m -> tests_at_most g m.
Proof.
  intros Hfg Hm s r s' H. destruct (Hm _ _ _ H) as (new & Htr & Hc).
  exists new. split; [done|]. intros p. specialize (Hc p).
  specialize (Hfg p). lia.
Qed.

Lemma tests_at_most_bind {A B} f g (m : M A) (k' : A -> M B) :
  tests_at_most f m -> (forall a, tests_at_most g (k' a)) ->
  tests_at_most (fun p => (f p + g p)%nat) (bind m k').
Proof.
  intros Hm Hk s r s'. unfold bind.
  destruct (m s) as [[a|e] s1] eqn:E1.
  - intros H. destruct (Hm _ _ _ E1) as (new1 & Htr1 & Hc1).
    destruct (Hk a _ _ _ H) as (new2 & Htr2 & Hc2).
    exists (new2 ++ new1). split; [by rewrite Htr2, Htr1, app_assoc|].
    intros p. rewrite count_event_app. specialize (Hc1 p).
    specialize (Hc2 p). lia.
  - intros [= <- <-]. destruct (Hm _ _ _ E1) as (new1 & Htr1 & Hc1).
    exists new1. split; [done|]. intros p. specialize (Hc1 p). lia.
Qed.

Lemma tests_at_most_bind0 {A B} (m : M A) (k' : A -> M B) :
  tests_at_most (fun _ => 0%nat) m ->
  (forall a, tests_at_most (fun _ => 0%nat) (k' a)) ->
  tests_at_most (fun _ => 0%nat) (bind m k').
Proof.
  intros Hm Hk.
  eapply tests_at_most_weaken; [|by apply tests_at_most_bind]. done.
Qed.

Lemma tests_at_most_Layout parent pathinfo :
  tests_at_most (fun _ => 0%nat) (Layout E parent pathinfo).
Proof.
  intros s r s'. unfold Layout, bind, emit, ret.
  destruct (Layout_new E pathinfo (runs s)) as [[l|e] log]; intros [= <- <-].
  - by exists [EvLayout parent].
  - by exists [].
Qed.

Lemma tests_at_most_run_layout_tests fqpath layout test_type :
  tests_at_most (fun p => if decide (p = fqpath) then 1 else 0)%nat
    (dht_test_utils.run_layout_tests E fqpath layout test_type).
Proof.
  intros s r s'. rewrite run_layout_tests_eq. intros [= <- <-].
  exists [EvLayoutTests fqpath]. split; [done|]. intros p.
  rewrite count_event_cons, count_event_nil.
  repeat case_decide; simplify_eq; lia.
Qed.

Lemma tests_at_most_run_hashed_bricks_test self :
  tests_at_most (fun _ => 0%nat)
    (dht_test_utils.run_hashed_bricks_test E self).
Proof.
  unfold dht_test_utils.run_hashed_bricks_test,
    glusterfile.exists_on_hashed_bricks, glusterfile.hashed_bricks,
    glusterfile.parent_dir_layout.
  pose proof (keeps_trace_file_exists E).
  pose proof (keeps_trace_hashed_bricks_loop E).
  pose proof (keeps_trace_get_pathinfo E).
  repeat first
    [ apply tests_at_most_Layout
    | apply tests_at_most_keeps; solve [trace_steps]
    | apply tests_at_most_bind0
    | progress intros
    | match goal with
      | |- tests_at_most _ (match ?x with _ => _ end) => destruct x
      | |- tests_at_most _ (let '(_, _) := ?x in _) => destruct x
      | |- tests_at_most _ (if ?x then _ else _) => destruct x
      end ].
Qed.

Lemma tests_at_most_check_entry host test_type root cache name :
  tests_at_most
    (fun p =>
       match cache !! entry_parent (root, name) with
       | Some _ => 0
       | None => if decide (p = entry_parent (root, name)) then 1 else 0
       end)%nat
    (dht_test_utils.check_entry E host test_type root cache name).
Proof.
  unfold dht_test_utils.check_entry. cbv zeta.
  change (glusterfile.parent_dir
            (glusterfile.__init__ host (Py.join root name)))
    with (entry_parent (root, name)).
  set (p0 := entry_parent (root, name)).
  assert (Hrest : forall c : gmap string layout.Layout,
            tests_at_most (fun _ => 0%nat)
              (if truthy (Z.land test_type
                            (TEST_FILE_EXISTS_ON_HASHED_BRICKS (k E)))
               then bind (dht_test_utils.run_hashed_bricks_test E
                            (glusterfile.__init__ host (Py.join root name)))
                         (fun _ => ret c)
               else ret c)).
  { intros c. destruct (truthy _).
    - apply tests_at_most_bind0;
        [apply tests_at_most_run_hashed_bricks_test|].
      intros. apply tests_at_most_keeps, keeps_trace_ret.
    - apply tests_at_most_keeps, keeps_trace_ret. }
  destruct (cache !! p0).
  - apply tests_at_most_bind0; [|done].
    apply tests_at_most_keeps, keeps_trace_ret.
  - eapply tests_at_most_weaken;
      [|apply tests_at_most_bind;
         [apply tests_at_most_bind;
            [apply tests_at_most_keeps, keeps_trace_get_pathinfo
            |intros pathinfo; apply tests_at_most_bind;
               [apply tests_at_most_Layout
               |intros layout; apply tests_at_most_bind;
                  [apply tests_at_most_run_layout_tests
                  |intros; apply tests_at_most_keeps, keeps_trace_ret]]]
         |exact Hrest]].
    intros p. simpl. case_decide; lia.
Qed.

(** Whatever the outcome, no path has its layout tested twice, and a path
    that is in the cache already is not tested at all. *)
Lemma check_entries_tests_at_most host test_type entries :
  forall cache,
    tests_at_most
      (fun p => match cache !! p with Some _ => 0 | None => 1 end)%nat
      (check_entries E host test_type entries cache).
Proof.
  induction entries as [|[root name] entries IH]; intros cache s r s' H.
  - inversion H; subst. exists []. split; [done|]. intros p.
    rewrite count_event_nil. lia.
  - rewrite check_entries_cons in H. simpl fst in H. simpl snd in H.
    set (p0 := entry_parent (root, name)) in *.
    destruct (dht_test_utils.check_entry E host test_type root cache name s)
      as [[cache1|e] s1] eqn:Hone.
    + rewrite (bind_ok _ _ _ _ _ Hone) in H.
      destruct (IH _ _ _ _ H) as (new2 & Htr2 & Hc2).
      apply check_entry_trace in Hone. cbv zeta in Hone. fold p0 in Hone.
      set (placement :=
             if truthy (Z.land test_type
                          (TEST_FILE_EXISTS_ON_HASHED_BRICKS (k E)))
             then [EvLayout p0] else []) in *.
      assert (Hpl : forall p,
                count_event (EvLayoutTests p) placement = 0%nat)
        by (intros p; subst placement; by destruct (truthy _)).
      destruct (cache !! p0) as [l0|] eqn:Hp0.
      * destruct Hone as [-> Htr1]. exists (new2 ++ placement).
        split; [by rewrite Htr2, Htr1, app_assoc|]. intros p.
        rewrite count_event_app, Hpl. specialize (Hc2 p). lia.
      * destruct Hone as [[l0 ->] Htr1].
        exists (new2 ++ placement ++ [EvLayoutTests p0; EvLayout p0]).
        split; [by rewrite Htr2, Htr1, <- !app_assoc|]. intros p.
        rewrite !count_event_app, Hpl, !count_event_cons, count_event_nil.
        specialize (Hc2 p).
        destruct (decide (p = p0)) as [->|Hne].
        -- rewrite lookup_insert_eq in Hc2. rewrite Hp0.
           repeat case_decide; simplify_eq; lia.
        -- rewrite lookup_insert_ne in Hc2 by done.
           repeat case_decide; simplify_eq; try done.
           destruct (cache !! p); lia.
    + rewrite (bind_raise _ _ _ _ _ Hone) in H. inversion H; subst.
      destruct (tests_at_most_check_entry _ _ _ _ _ _ _ _ Hone)
        as (new & Htr & Hc).
      exists new. split; [done|]. intros p. specialize (Hc p).
      fold p0 in Hc. destruct (cache !! p0) eqn:Hp0; [destruct (cache !! p); lia|].
      case_decide; [subst; rewrite Hp0; lia|]. destruct (cache !! p); lia.
Qed.

(** C3, as the code has it: whatever the outcome of the call,
    [run_layout_tests] is executed at most once for a parent directory;
    in a call that returns it is executed exactly once for every parent
    directory of an entry, and the traversal constructs one [Layout] for
    it, kept in a cache that is a local of the call.  The placement check
    does not use that cache: when it is selected, every entry constructs
    a [Layout] of its own through [GlusterFile.parent_dir_layout], so a
    parent directory with n entries sees 1 + n constructions. *)
Theorem validate_files_in_dir_layout_cache
    host rootdir file_type test_type s :
  let outcome :=
    dht_test_utils.validate_files_in_dir E host rootdir file_type test_type s
  in
  let entries := entries_of E host rootdir file_type in
  let hashed :=
    truthy (Z.land test_type (TEST_FILE_EXISTS_ON_HASHED_BRICKS (k E))) in
  (exists new,
     trace outcome.2 = new ++ trace s /\
     forall p, (count_event (EvLayoutTests p) new <= 1)%nat) /\
  (forall r s',
     outcome = (Ok r, s') ->
     exists new,
       trace s' = new ++ trace s /\
       forall p,
         let tests := count_event (EvLayoutTests p) new in
         (p ∈ entry_parent <$> entries -> tests = 1%nat) /\
         (p ∉ entry_parent <$> entries -> tests = 0%nat) /\
         count_event (EvLayout p) new =
           (tests +
            (if hashed
             then length (filter (fun e => entry_parent e = p) entries)
             else 0))%nat).
Proof.
  intros outcome entries hashed. split.
  - subst outcome. rewrite validate_files_in_dir_eq.
    destruct (bind _ _ s) as [r s'] eqn:H. simpl.
    assert (Hb : tests_at_most (fun _ => 1%nat)
                   (bind (check_entries E host test_type
                            (entries_of E host rootdir file_type) ∅)
                         (fun _ => ret true))).
    { eapply tests_at_most_weaken;
        [|apply tests_at_most_bind;
           [apply check_entries_tests_at_most|]].
      2: { intros. apply tests_at_most_keeps, keeps_trace_ret. }
      intros p. simpl. rewrite lookup_empty. lia. }
    apply (Hb _ _ _ H).
  - intros r s' H. subst outcome. rewrite validate_files_in_dir_eq in H.
    apply bind_inv_ok in H as (cache & s1 & Hc & H). inversion H; subst.
    destruct (check_entries_trace _ _ _ _ _ _ _ Hc)
      as (new & Htr & _ & Hcount).
    exists new. split; [done|]. intros p. cbv zeta.
    destruct (Hcount p) as (H1 & H0 & Hl). fold entries in H1, H0, Hl.
    split; [|split].
    + intros Hin. apply H1; [apply lookup_empty|done].
    + intros Hnot. apply H0. by right.
    + exact Hl.
Qed.

End LayoutCache.

(** * Further properties of the modules *)

(** ** Splitting and joining *)

Section SplitFacts.
Import Py.

Lemma chars_app a b : chars (a +:+ b) = chars a ++ chars b.
Proof. induction a as [|c a IH]; simpl; [done|]. by rewrite <- IH. Qed.

Lemma str_app a b : str (a ++ b) = str a +:+ str b.
Proof. induction a as [|c a IH]; simpl; [done|]. by rewrite IH. Qed.

Lemma split_chars_nonempty sep cur l :
  exists p ps, split_chars sep cur l = p :: ps.
Proof.
  revert cur. induction l as [|c l IH]; intros cur; simpl; [eauto|].
  destruct (Ascii.eqb c sep); eauto.
Qed.

Lemma split_chars_length sep cur l :
  length (split_chars sep cur l) = S (length (filter (fun x => x = sep) l)).
Proof.
  revert cur. induction l as [|c l IH]; intros cur; simpl; [done|].
  rewrite filter_cons. destruct (Ascii.eqb_spec c sep) as [->|Hne].
  - rewrite decide_True by done. simpl. by rewrite IH.
  - rewrite decide_False by done. apply IH.
Qed.

(** Joining the parts with the separator gives the text back. *)
Lemma split_chars_join sep cur l :
  join_chars [sep] (split_chars sep cur l) = rev cur ++ l.
Proof.
  revert cur. induction l as [|c l IH]; intros cur; simpl.
  - by rewrite app_nil_r.
  - destruct (Ascii.eqb_spec c sep) as [->|Hne].
    + specialize (IH []).
      destruct (split_chars_nonempty sep [] l) as (p & ps & Hp).
      rewrite Hp in *.
      change (join_chars [sep] (rev cur :: p :: ps))
        with (rev cur ++ [sep] ++ join_chars [sep] (p :: ps)).
      by rewrite IH.
    + rewrite IH. simpl. by rewrite <- app_assoc.
Qed.

Lemma elem_of_rev (x : ascii) l : x ∈ rev l <-> x ∈ l.
Proof. rewrite !list_elem_of_In. symmetry. apply in_rev. Qed.

(** No part holds the separator. *)
Lemma split_chars_no_sep sep cur l :
  sep ∉ cur -> Forall (fun p => sep ∉ p) (split_chars sep cur l).
Proof.
  revert cur. induction l as [|c l IH]; intros cur Hcur; simpl.
  - constructor; [|done]. by rewrite elem_of_rev.
  - destruct (Ascii.eqb_spec c sep) as [->|Hne].
    + constructor; [by rewrite elem_of_rev|]. apply IH, not_elem_of_nil.
    + apply IH. rewrite elem_of_cons. intros [->|?]; done.
Qed.

Lemma count_none (c : ascii) (l : list ascii) :
  c ∉ l -> length (filter (fun x => x = c) l) = 0%nat.
Proof.
  induction l as [|a l IH]; [done|]. rewrite not_elem_of_cons.
  intros [Hne Hl]. rewrite filter_cons, decide_False by done. by apply IH.
Qed.

(** A path splits into two parts exactly when it holds one colon, and the
    two parts with a colon between them are the path. *)
Lemma split_colon_spec path :
  (count_char ":" path = 1%nat ->
   exists host fqpath,
     split ":" path = [host; fqpath] /\
     path = host +:+ ":" +:+ fqpath /\
     count_char ":" host = 0%nat /\ count_char ":" fqpath = 0%nat) /\
  (count_char ":" path <> 1%nat ->
   forall a b, split ":" path <> [a; b]).
Proof.
  unfold count_char, split.
  pose proof (split_chars_length ":" [] (chars path)) as Hlen.
  pose proof (split_chars_join ":" [] (chars path)) as Hjoin.
  pose proof (split_chars_no_sep ":" [] (chars path)
                (not_elem_of_nil _)) as Hno.
  split.
  - intros Hc. rewrite Hc in Hlen.
    destruct (split_chars ":" [] (chars path)) as [|a [|b [|c l]]];
      try done.
    exists (str a), (str b). split; [done|].
    simpl in Hjoin. inversion Hno as [|? ? Ha Hb']; subst.
    inversion Hb' as [|? ? Hb _]; subst.
    rewrite !chars_str, !count_none by done. split; [|done].
    rewrite <- (str_chars path), <- Hjoin.
    change (a ++ [":"%char] ++ b) with (a ++ ":"%char :: b).
    rewrite str_app. done.
  - intros Hc a b Heq. apply (f_equal length) in Heq.
    rewrite length_fmap, Hlen in Heq. simpl in Heq. lia.
Qed.

End SplitFacts.

(** ** brickdir.py: construction and the other methods *)

Section BrickDirMore.
Context (G : Glusto).

(** X1: [BrickDir(path)] succeeds exactly when the path holds one colon;
    the host and the path on the host then give the brick path back when
    joined by a colon, neither holds a colon, and the cache is empty.
    Any other path is a [ValueError]. *)
Theorem BrickDir_init_one_colon path s :
  (count_char ":" path = 1%nat ->
   exists host fqpath,
     brickdir.__init__ path s = (Ok (fresh_brick path host fqpath), s) /\
     path = host +:+ ":" +:+ fqpath /\
     count_char ":" host = 0%nat /\ count_char ":" fqpath = 0%nat) /\
  (count_char ":" path <> 1%nat ->
   brickdir.__init__ path s = (Raise ValueError, s)).
Proof.
  destruct (split_colon_spec path) as [Hone Hother]. split.
  - intros Hc. destruct (Hone Hc) as (host & fqpath & Hsp & Hp & Hh & Hf).
    exists host, fqpath. split; [|done].
    unfold brickdir.__init__. by rewrite Hsp.
  - intros Hc. specialize (Hother Hc). unfold brickdir.__init__.
    destruct (Py.split ":" path) as [|a [|b [|c l]]]; try done.
    by destruct (Hother a b).
Qed.

(** X2: [get_hashrange] issues no command for a path that does not hold
    exactly one colon: it is a [ValueError] at once.  For a path with one
    colon it issues exactly one command, on the host before the colon and
    about the path after it, whatever the outcome. *)
Theorem get_hashrange_commands path s :
  (count_char ":" path <> 1%nat ->
   brickdir.get_hashrange G path s = (Raise ValueError, s)) /\
  (count_char ":" path = 1%nat ->
   exists host fqpath,
     path = host +:+ ":" +:+ fqpath /\
     forall r s',
       brickdir.get_hashrange G path s = (r, s') ->
       s' = after_run s host (brickdir.hashrange_command fqpath)).
Proof.
  destruct (split_colon_spec path) as [Hone Hother]. split.
  - intros Hc. specialize (Hother Hc). unfold brickdir.get_hashrange.
    destruct (Py.split ":" path) as [|a [|b [|c l]]]; try done.
    by destruct (Hother a b).
  - intros Hc. destruct (Hone Hc) as (host & fqpath & Hsp & Hp & _).
    exists host, fqpath. split; [done|]. intros r s'.
    rewrite (get_hashrange_eq G _ _ _ _ Hsp).
    destruct (g_run G _ _ _) as [rcode rout]. cbv zeta.
    destruct (rcode =? 0); [|by intros [= _ <-]].
    rewrite decode_hashrange_eq. cbv zeta.
    destruct (Py.int16 (Py.first_chars 8 _));
      [destruct (Py.int16 (Py.last_chars 8 _))|]; by intros [= _ <-].
Qed.

(** A fetch that returns filled the cache with one command. *)
Lemma _get_hashrange_fetch b s b' s' :
  brickdir._get_hashrange G b s = (Ok b', s') ->
  exists low high host fqpath,
    b' = cached_brick b low high /\
    s' = after_run s host (brickdir.hashrange_command fqpath).
Proof.
  unfold brickdir._get_hashrange. intros H.
  apply bind_inv_ok in H as ([[low high]|] & s1 & Hget & H); [|done].
  apply get_hashrange_one_command in Hget as (host & fqpath & _ & ->).
  exists low, high, host, fqpath. by inversion H.
Qed.

(** X3: whatever the state of the cache, [hashrange_low] and
    [hashrange_high] never return [None]: when they return, the bound is a
    number, it is the one the cache holds afterwards, and at most one
    command was issued. *)
Theorem hashrange_bounds_never_none b s :
  (forall b' lo s',
     brickdir.hashrange_low G b s = (Ok (b', lo), s') ->
     exists v,
       lo = Some v /\ brickdir._hashrange_low b' = Some v /\
       brickdir._hashrange b' <> None /\
       (s' = s \/
        exists host fqpath,
          s' = after_run s host (brickdir.hashrange_command fqpath))) /\
  (forall b' hi s',
     brickdir.hashrange_high G b s = (Ok (b', hi), s') ->
     exists v,
       hi = Some v /\ brickdir._hashrange_high b' = Some v /\
       brickdir._hashrange b' <> None /\
       (s' = s \/
        exists host fqpath,
          s' = after_run s host (brickdir.hashrange_command fqpath))).
Proof.
  split; intros b' x s' H;
    unfold brickdir.hashrange_low, brickdir.hashrange_high,
      brickdir.hashrange in H;
    apply bind_inv_ok in H as ([b1 pair] & s1 & H1 & H);
    apply bind_inv_ok in H1 as (b0 & s0 & H0 & H1);
    injection H1 as <- _ <-;
    apply bind_inv_ok in H as (b2 & s2 & H2 & H);
    injection H as <- <- <-.
  - destruct (brickdir._hashrange b) as [p|] eqn:Hr.
    + injection H0 as <- <-.
      destruct (brickdir._hashrange_low b) as [v|] eqn:Hl.
      * injection H2 as <- <-. exists v. rewrite Hl, Hr. eauto.
      * apply _get_hashrange_fetch in H2
          as (low & high & host & fqpath & -> & ->).
        exists low. simpl. eauto 10.
    + apply _get_hashrange_fetch in H0
        as (low & high & host & fqpath & -> & ->).
      simpl in H2. injection H2 as <- <-. exists low. simpl. eauto 10.
  - destruct (brickdir._hashrange b) as [p|] eqn:Hr.
    + injection H0 as <- <-.
      destruct (brickdir._hashrange_high b) as [v|] eqn:Hl.
      * injection H2 as <- <-. exists v. rewrite Hl, Hr. eauto.
      * apply _get_hashrange_fetch in H2
          as (low & high & host & fqpath & -> & ->).
        exists high. simpl. eauto 10.
    + apply _get_hashrange_fetch in H0
        as (low & high & host & fqpath & -> & ->).
      simpl in H2. injection H2 as <- <-. exists high. simpl. eauto 10.
Qed.

(** Reading the low bound of a brick directory whose cache is empty or
    filled. *)
Lemma hashrange_low_cache_ok b s b1 lo s1 :
  cache_ok b = true ->
  brickdir.hashrange_low G b s = (Ok (b1, lo), s1) ->
  is_resolved b1 = true /\ lo = Some (low_of b1) /\
  brickdir._path b1 = brickdir._path b /\
  ((is_resolved b = true /\ b1 = b /\ s1 = s) \/
   (is_resolved b = false /\
    exists host fqpath,
      s1 = after_run s host (brickdir.hashrange_command fqpath))).
Proof.
  intros Hok H. destruct (is_resolved b) eqn:Hres.
  - destruct (hashrange_resolved G b s Hres) as (_ & Hl & _).
    rewrite Hl in H. injection H as <- <- <-.
    split; [done|]. split; [|split; [done|by left]].
    unfold is_resolved in Hres. unfold low_of.
    by destruct (brickdir._hashrange b), (brickdir._hashrange_low b).
  - unfold cache_ok in Hok. rewrite Hres in Hok.
    destruct (brickdir._hashrange b) eqn:Hnone; [done|].
    unfold brickdir.hashrange_low, brickdir.hashrange in H.
    rewrite Hnone in H.
    apply bind_inv_ok in H as ([b2 pair] & s2 & H1 & H).
    apply bind_inv_ok in H1 as (b0 & s0 & H0 & H1).
    injection H1 as <- _ <-.
    apply _get_hashrange_fetch in H0
      as (low & high & host & fqpath & -> & ->).
    simpl in H. injection H as <- <- <-.
    split; [done|]. split; [done|]. split; [done|]. right. eauto.
Qed.

(** X4: on a brick directory whose cache is empty or filled,
    [has_zero_hashrange] is [True] exactly when both bounds are 0; the
    range is resolved afterwards, at most one command was issued, and
    none when the range was resolved before. *)
Theorem has_zero_hashrange_spec b s b' r s' :
  cache_ok b = true ->
  brickdir.has_zero_hashrange G b s = (Ok (b', r), s') ->
  is_resolved b' = true /\
  brickdir._path b' = brickdir._path b /\
  (r = true <-> low_of b' = 0 /\ high_of b' = 0) /\
  ((is_resolved b = true /\ b' = b /\ s' = s) \/
   (is_resolved b = false /\
    exists host fqpath,
      s' = after_run s host (brickdir.hashrange_command fqpath))).
Proof.
  intros Hok H. unfold brickdir.has_zero_hashrange in H.
  apply bind_inv_ok in H as ([b1 lo] & s1 & Hlow & H).
  destruct (hashrange_low_cache_ok _ _ _ _ _ Hok Hlow)
    as (Hres1 & -> & Hpath & Hcase).
  cbv beta iota in H. case_bool_decide as Hz.
  - apply bind_inv_ok in H as ([b2 hi] & s2 & Hhigh & H).
    destruct (hashrange_resolved G b1 s1 Hres1) as (_ & _ & Hh).
    rewrite Hh in Hhigh. injection Hhigh as <- <- <-.
    injection H as <- <- <-.
    split; [done|]. split; [done|]. split; [|done].
    injection Hz as Hz. rewrite Hz. unfold high_of.
    rewrite bool_decide_eq_true.
    unfold is_resolved in Hres1.
    destruct (brickdir._hashrange b1), (brickdir._hashrange_low b1),
      (brickdir._hashrange_high b1) as [h|]; try done.
    simpl. split; [by intros [= ->]|by intros [_ ->]].
  - injection H as <- <- <-.
    split; [done|]. split; [done|]. split; [|done].
    split; [done|]. intros [Hl _]. destruct Hz. by rewrite Hl.
Qed.

End BrickDirMore.

(** ** glusterfile.py: the existence checks *)

Section ExistenceFacts.
Context (E : Env).

Lemma after_probes_cons s hf hfs :
  after_probes (after_run s hf.1 ("ls -ld " +:+ hf.2)) hfs =
  after_probes s (hf :: hfs).
Proof.
  unfold after_probes, after_run. simpl. f_equal.
  by rewrite <- app_assoc.
Qed.

(** The loop of the existence checks: every path is probed, a miss does
    not stop the loop, and the flag stays as it was exactly when every
    probe succeeded. *)
Lemma probe_loop (G : Glusto) paths hfs :
  host_paths paths hfs ->
  forall flag s,
    for_each
      (fun flag brickdir_path =>
         bind (unpack2 (Py.split ":" brickdir_path))
           (fun x => let '(host, fqpath) := x in
              bind (glusterfile.file_exists G host fqpath)
                (fun found => ret (if found then flag else Z.lor flag 1))))
      paths flag s =
    (Ok (if all_found G (length (runs s)) hfs then flag else Z.lor flag 1),
     after_probes s hfs).
Proof.
  induction 1 as [|p [h f] paths hfs Hp _ IH]; intros flag s.
  - simpl. unfold ret, after_probes. by destruct s.
  - simpl in Hp. cbn [for_each].
    assert (Hstep :
      bind (unpack2 (Py.split ":" p))
        (fun x => let '(host, fqpath) := x in
           bind (glusterfile.file_exists G host fqpath)
             (fun found => ret (if found then flag else Z.lor flag 1))) s =
      (Ok (if (g_run G (length (runs s)) h ("ls -ld " +:+ f)).1 =? 0
           then flag else Z.lor flag 1),
       after_run s h ("ls -ld " +:+ f))).
    { rewrite Hp. unfold glusterfile.file_exists, bind, run, ret, after_run.
      simpl. by destruct (g_run G _ _ _). }
    rewrite (bind_ok _ _ _ _ _ Hstep), IH.
    change (after_probes (after_run s h ("ls -ld " +:+ f)) hfs)
      with (after_probes (after_run s (h, f).1 ("ls -ld " +:+ (h, f).2)) hfs).
    rewrite after_probes_cons. f_equal. f_equal.
    cbn [all_found fst snd after_run runs length].
    destruct (_ =? 0); simpl; [done|].
    destruct (all_found G _ hfs); [done|].
    by rewrite <- Z.lor_assoc, Z.lor_diag.
Qed.

Lemma exists_on_hashed_bricks_eq self s self' paths s1 hfs :
  glusterfile.hashed_bricks E self s = (Ok (self', paths), s1) ->
  host_paths paths hfs ->
  glusterfile.exists_on_hashed_bricks E self s =
    (Ok (self', all_found E (length (runs s1)) hfs), after_probes s1 hfs).
Proof.
  intros Hhb Hpaths. unfold glusterfile.exists_on_hashed_bricks.
  rewrite (bind_ok _ _ _ _ _ Hhb). cbv beta iota.
  unfold bind at 1. rewrite (probe_loop E _ _ Hpaths). unfold ret.
  by destruct (all_found E _ hfs).
Qed.


(** X6: [run_hashed_bricks_test] returns [True] when every probe of a
    hashed brick succeeds and raises [FileDoesNotExistOnHashedBricks],
    with the path of the entry in the message, when one of them fails;
    all the probes have been issued in both cases. *)
Theorem run_hashed_bricks_test_outcome self s self' paths s1 hfs :
  glusterfile.hashed_bricks E self s = (Ok (self', paths), s1) ->
  host_paths paths hfs ->
  dht_test_utils.run_hashed_bricks_test E self s =
    (if all_found E (length (runs s1)) hfs then Ok (self', true)
     else Raise (FileDoesNotExistOnHashedBricks
                   ("File/Dir " +:+ glusterfile._fqpath self' +:+
                    " DOES NOT EXIST on hashed bricks.")),
     after_probes s1 hfs).
Proof.
  intros Hhb Hpaths. unfold dht_test_utils.run_hashed_bricks_test.
  rewrite (bind_ok _ _ _ _ _
             (exists_on_hashed_bricks_eq _ _ _ _ _ _ Hhb Hpaths)).
  cbv beta iota. by destruct (all_found E _ hfs).
Qed.

(** [get_pathinfo] issues one command; a failed command is a [TypeError],
    not the [None] of the docstring. *)
Lemma get_pathinfo_eq (G : Glusto) host fqpath s :
  glusterfile.get_pathinfo G host fqpath s =
    (let '(rcode, rout) :=
       g_run G (length (runs s)) host (pathinfo_command fqpath) in
     if rcode =? 0 then Ok (pathinfo_of G rout) else Raise TypeError,
     after_run s host (pathinfo_command fqpath)).
Proof.
  unfold glusterfile.get_pathinfo, glusterfile.get_fattr, bind, run, ret,
    raise, after_run, pathinfo_of.
  change ("getfattr --absolute-names --only-values -n '" +:+
          "trusted.glusterfs.pathinfo" +:+ "' " +:+ fqpath)
    with (pathinfo_command fqpath).
  destruct (g_run G _ _ _) as [rcode rout]. by destruct (rcode =? 0).
Qed.

(** X7: [exists_on_bricks] reads the pathinfo attribute again at every
    call, whatever an earlier call stored in the object, then probes every
    brick path of it without stopping at a miss; it is [True] exactly when
    every probe succeeds, and so when the attribute names no brick. *)
Theorem exists_on_bricks_refetches (G : Glusto) self s rout hfs :
  g_run G (length (runs s)) (glusterfile._host self)
    (pathinfo_command (glusterfile._fqpath self)) = (0, rout) ->
  host_paths (brickdir_paths (pathinfo_of G rout)) hfs ->
  let s1 :=
    after_run s (glusterfile._host self)
      (pathinfo_command (glusterfile._fqpath self)) in
  glusterfile.exists_on_bricks G self s =
    (Ok (glusterfile.set_pathinfo self (pathinfo_of G rout),
         all_found G (length (runs s1)) hfs),
     after_probes s1 hfs) /\
  (brickdir_paths (pathinfo_of G rout) = [] ->
   glusterfile.exists_on_bricks G self s =
     (Ok (glusterfile.set_pathinfo self (pathinfo_of G rout), true), s1)).
Proof.
  intros Hrun Hpaths s1.
  assert (Hpi : glusterfile.pathinfo G self s =
                (Ok (glusterfile.set_pathinfo self (pathinfo_of G rout),
                     pathinfo_of G rout), s1)).
  { unfold glusterfile.pathinfo, bind. by rewrite get_pathinfo_eq, Hrun. }
  assert (Heq : glusterfile.exists_on_bricks G self s =
                (Ok (glusterfile.set_pathinfo self (pathinfo_of G rout),
                     all_found G (length (runs s1)) hfs),
                 after_probes s1 hfs)).
  { unfold glusterfile.exists_on_bricks.
    rewrite (bind_ok _ _ _ _ _ Hpi). cbv beta iota.
    unfold bind at 1. rewrite (probe_loop G _ _ Hpaths). unfold ret.
    by destruct (all_found G _ hfs). }
  split; [done|]. intros Hnil. rewrite Heq. rewrite Hnil in Hpaths.
  unfold host_paths in Hpaths. inversion Hpaths; subst. reflexivity.
Qed.

(** X8: the mount point is kept in the object only when [df] succeeded.
    After a success every later access returns it without a command;
    after a failure the access returns [None], nothing is kept, and the
    next access issues the command again. *)
Theorem mountpoint_cached_on_success (G : Glusto) self s rcode rout :
  glusterfile._mountpoint self = None ->
  g_run G (length (runs s)) (glusterfile._host self)
    (mountpoint_command (glusterfile._fqpath self)) = (rcode, rout) ->
  let s1 :=
    after_run s (glusterfile._host self)
      (mountpoint_command (glusterfile._fqpath self)) in
  (rcode = 0 ->
   let self1 := glusterfile.set_mountpoint self (Some (Py.strip rout)) in
   glusterfile.mountpoint G self s = (Ok (self1, Some (Py.strip rout)), s1) /\
   forall s2,
     glusterfile.mountpoint G self1 s2 =
       (Ok (self1, Some (Py.strip rout)), s2)) /\
  (rcode <> 0 ->
   let self1 := glusterfile.set_mountpoint self None in
   glusterfile.mountpoint G self s = (Ok (self1, None), s1) /\
   forall s2 r s3,
     glusterfile.mountpoint G self1 s2 = (r, s3) ->
     s3 = after_run s2 (glusterfile._host self)
            (mountpoint_command (glusterfile._fqpath self))).
Proof.
  intros Hnone Hrun s1.
  assert (Hget : forall s2,
            glusterfile.get_mountpoint G (glusterfile._host self)
              (glusterfile._fqpath self) s2 =
            (let '(rc, out) :=
               g_run G (length (runs s2)) (glusterfile._host self)
                 (mountpoint_command (glusterfile._fqpath self)) in
             Ok (if rc =? 0 then Some (Py.strip out) else None),
             after_run s2 (glusterfile._host self)
               (mountpoint_command (glusterfile._fqpath self)))).
  { intros s2. unfold glusterfile.get_mountpoint, bind, run, ret.
    fold (mountpoint_command (glusterfile._fqpath self)).
    destruct (g_run G (length (runs s2)) _ _) as [rc out].
    destruct (rc =? 0); reflexivity. }
  split.
  - intros -> self1. split.
    + unfold glusterfile.mountpoint. rewrite Hnone. unfold bind.
      by rewrite Hget, Hrun.
    + intros s2. done.
  - intros Hrc self1. apply Z.eqb_neq in Hrc. split.
    + unfold glusterfile.mountpoint. rewrite Hnone. unfold bind.
      by rewrite Hget, Hrun, Hrc.
    + intros s2 r s3. unfold glusterfile.mountpoint. simpl.
      unfold bind. rewrite Hget.
      destruct (g_run G (length (runs s2)) _ _) as [rc out].
      by intros [= _ <-].
Qed.

End ExistenceFacts.

(** ** glusterfile.py: file attributes *)

Section FileFacts.
Context (G : Glusto).

Lemma split_length_str sep s :
  length (Py.split sep s) = S (count_char sep s).
Proof.
  unfold Py.split, count_char. by rewrite length_fmap, split_chars_length.
Qed.

(** Splitting at a character and joining with it gives the string back. *)
Lemma split_join_str s : Py.str_join ":" (Py.split ":" s) = s.
Proof.
  unfold Py.str_join, Py.split.
  assert (Hid : forall l : list (list ascii),
            Py.chars <$> (Py.str <$> l) = l).
  { induction l as [|x l IH]; [done|].
    by rewrite !fmap_cons, chars_str, IH. }
  rewrite Hid.
  change (Py.chars ":") with [":"%char].
  rewrite split_chars_join. simpl. apply str_chars.
Qed.

(** X9: [get_file_stat] returns [None] when [stat] fails.  When it
    succeeds, the output has to hold exactly nine colons: then the ten
    values of the dictionary, read in the order of the format and joined
    by colons, are the output again; with any other number of colons (a
    file name with a colon in it, for one) the call is a [ValueError]. *)
Theorem get_file_stat_fields host fqpath s rcode rout :
  g_run G (length (runs s)) host (stat_command fqpath) = (rcode, rout) ->
  let s1 := after_run s host (stat_command fqpath) in
  (rcode <> 0 -> glusterfile.get_file_stat G host fqpath s = (Ok None, s1)) /\
  (rcode = 0 -> count_char ":" (Py.strip rout) <> 9%nat ->
   glusterfile.get_file_stat G host fqpath s = (Raise ValueError, s1)) /\
  (rcode = 0 -> count_char ":" (Py.strip rout) = 9%nat ->
   exists (d : gmap string string)
          filetype filename inode access size links uid gid username
          groupname,
     glusterfile.get_file_stat G host fqpath s = (Ok (Some d), s1) /\
     d !! "filetype" = Some filetype /\ d !! "filename" = Some filename /\
     d !! "inode" = Some inode /\ d !! "access" = Some access /\
     d !! "size" = Some size /\ d !! "links" = Some links /\
     d !! "uid" = Some uid /\ d !! "gid" = Some gid /\
     d !! "username" = Some username /\
     d !! "groupname" = Some groupname /\
     map_size d = 10%nat /\
     Py.str_join ":"
       [filetype; filename; inode; access; size; links; uid; gid; username;
        groupname] = Py.strip rout).
Proof.
  intros Hrun s1.
  assert (Heq : glusterfile.get_file_stat G host fqpath s =
                (if rcode =? 0 then
                   match Py.split ":" (Py.strip rout) with
                   | [filetype; filename; inode; access; size; links; uid;
                      gid; username; groupname] =>
                       Ok (Some
                             (<["gid" := gid]>
                              (<["uid" := uid]>
                               (<["groupname" := groupname]>
                                (<["username" := username]>
                                 (<["links" := links]>
                                  (<["size" := size]>
                                   (<["access" := access]>
                                    (<["inode" := inode]>
                                     (<["filename" := filename]>
                                      (<["filetype" := filetype]>
                                       (∅ : gmap string string))))))))))))
                   | _ => Raise ValueError
                   end
                 else Ok None, s1)).
  { unfold glusterfile.get_file_stat, bind, run. cbv zeta.
    change ("stat -c '" +:+ glusterfile.statformat +:+ "' " +:+ fqpath)
      with (stat_command fqpath).
    rewrite Hrun. destruct (rcode =? 0); [|done].
    destruct (Py.split ":" (Py.strip rout))
      as [|x0 [|x1 [|x2 [|x3 [|x4 [|x5 [|x6 [|x7 [|x8 [|x9 [|x10 l]]]]]]]]]]];
      done. }
  rewrite Heq. clear Heq.
  pose proof (split_length_str ":" (Py.strip rout)) as Hlen.
  pose proof (split_join_str (Py.strip rout)) as Hjoin.
  split; [|split].
  - intros Hrc. apply Z.eqb_neq in Hrc. by rewrite Hrc.
  - intros -> Hc. simpl.
    destruct (Py.split ":" (Py.strip rout))
      as [|x0 [|x1 [|x2 [|x3 [|x4 [|x5 [|x6 [|x7 [|x8 [|x9 [|x10 l]]]]]]]]]]];
      try done.
    simpl in Hlen. lia.
  - intros -> Hc. simpl. rewrite Hc in Hlen.
    destruct (Py.split ":" (Py.strip rout))
      as [|x0 [|x1 [|x2 [|x3 [|x4 [|x5 [|x6 [|x7 [|x8 [|x9 [|x10 l]]]]]]]]]]];
      try done.
    eexists _, x0, x1, x2, x3, x4, x5, x6, x7, x8, x9.
    split; [reflexivity|]. repeat (split; [reflexivity|]). exact Hjoin.
Qed.

End FileFacts.

(** ** glusterfile.py and glusterdir.py: moving and creating *)

Section MoveCreate.
Context (E : Env).

(** X10: a successful [move] changes the path and remembers the old one,
    but keeps what the object had cached: a hash computed before the move
    is still the one [calculated_hash] returns, although a new object for
    the destination would hash the new name, and a cached parent layout
    is still the one [parent_dir_layout] returns.  A failed [move] leaves
    the object as it was. *)
Theorem move_keeps_caches self dest s :
  let host := glusterfile._host self in
  let command := "mv " +:+ glusterfile._fqpath self +:+ " " +:+ dest in
  let rcode := (g_run E (length (runs s)) host command).1 in
  let moved := glusterfile.set_fqpath self dest in
  (rcode = 0 ->
   glusterfile.move E self dest s = (Ok (moved, true), after_run s host command)
   /\ glusterfile._fqpath moved = dest
   /\ glusterfile._previous_fqpath moved = Some (glusterfile._fqpath self)
   /\ (forall h, glusterfile._calculated_hash self = Some h ->
        glusterfile.calculated_hash E moved = (moved, h))
   /\ (glusterfile.calculated_hash E (glusterfile.__init__ host dest)).2 =
        glusterfile.calculate_hash E host (Py.basename dest)
   /\ (forall l s2, glusterfile._parent_dir_layout self = Some l ->
        glusterfile.parent_dir_layout E moved s2 = (Ok (moved, l), s2))) /\
  (rcode <> 0 ->
   glusterfile.move E self dest s = (Ok (self, false), after_run s host command)).
Proof.
  intros host command rcode moved.
  assert (Heq : glusterfile.move E self dest s =
                (Ok (if rcode =? 0 then (moved, true) else (self, false)),
                 after_run s host command)).
  { unfold glusterfile.move, glusterfile.move_file, bind, run, ret.
    subst rcode. fold host. fold command.
    destruct (g_run E (length (runs s)) host command) as [rc out]. simpl.
    by destruct (rc =? 0). }
  rewrite Heq. split.
  - intros ->. simpl. repeat split.
    + intros h Hh. unfold glusterfile.calculated_hash. simpl. by rewrite Hh.
    + intros l s2 Hl. unfold glusterfile.parent_dir_layout. simpl.
      by rewrite Hl.
  - intros Hrc. apply Z.eqb_neq in Hrc. by rewrite Hrc.
Qed.

(** X11: [GlusterFile.create] never raises.  It returns [True] only when
    the file was absent and both [mkdir -p] of the parent directory and
    the copy succeeded, after these three commands in this order; when
    the file is there already it issues the existence probe alone and
    returns [False]; when [mkdir] fails the copy is not attempted. *)
Theorem GlusterFile_create_outcome self s :
  let host := glusterfile._host self in
  let n := length (runs s) in
  let ls := "ls -ld " +:+ glusterfile._fqpath self in
  let mk := "mkdir -p " +:+ glusterfile.parent_dir self in
  let cp := "cp /etc/inittab " +:+ glusterfile._fqpath self in
  let present := (g_run E n host ls).1 =? 0 in
  let made := (g_run E (S n) host mk).1 =? 0 in
  let copied := (g_run E (S (S n)) host cp).1 =? 0 in
  let s1 := after_run s host ls in
  let s2 := after_run s1 host mk in
  let s3 := after_run s2 host cp in
  (present = true -> glusterfile.create E self s = (Ok false, s1)) /\
  (present = false -> made = false ->
   glusterfile.create E self s = (Ok false, s2)) /\
  (present = false -> made = true ->
   glusterfile.create E self s = (Ok copied, s3)) /\
  (forall s', glusterfile.create E self s = (Ok true, s') ->
     present = false /\ made = true /\ copied = true /\ s' = s3).
Proof.
  intros host n ls mk cp present made copied s1 s2 s3.
  assert (Heq : glusterfile.create E self s =
                if present then (Ok false, s1)
                else if made then (Ok copied, s3) else (Ok false, s2)).
  { unfold glusterfile.create, glusterfile.exists_on_client,
      glusterfile.file_exists, bind, run, ret.
    subst present made copied. fold host ls. fold n. cbn [runs length].
    fold n. fold mk cp.
    destruct (g_run E n host ls) as [r1 o1]. cbn [fst].
    destruct (r1 =? 0); [done|]. cbn [negb].
    cbv beta iota. cbn [runs length]. fold n.
    destruct (g_run E (S n) host mk) as [r2 o2]. cbn [fst].
    destruct (r2 =? 0); [|done]. cbn [negb].
    cbv beta iota. cbn [runs length]. fold n.
    destruct (g_run E (S (S n)) host cp) as [r3 o3]. cbn [fst].
    by destruct (r3 =? 0). }
  rewrite Heq. clear Heq. split; [|split; [|split]].
  - intros Hp. by rewrite Hp.
  - intros Hp Hm. by rewrite Hp, Hm.
  - intros Hp Hm. by rewrite Hp, Hm.
  - intros s'. destruct present; [done|]. destruct made; [|done].
    intros [= Hc Hs]. by rewrite Hc.
Qed.

(** X12: [GlusterDir.create] issues [mkdir -p] on the path of the
    directory, the three words joined by single spaces, only when the
    directory is absent; it returns [True] exactly when the directory was
    absent and [mkdir] succeeded, so [False] for a directory that is
    there already. *)
Theorem GlusterDir_create_outcome (self : glusterdir.GlusterDir) s :
  let host := glusterfile._host self in
  let n := length (runs s) in
  let ls := "ls -ld " +:+ glusterfile._fqpath self in
  let mk := "mkdir -p " +:+ glusterfile._fqpath self in
  let present := (g_run E n host ls).1 =? 0 in
  let made := (g_run E (S n) host mk).1 =? 0 in
  (present = true ->
   glusterdir.create E self s = (Ok false, after_run s host ls)) /\
  (present = false ->
   glusterdir.create E self s =
     (Ok made, after_run (after_run s host ls) host mk)).
Proof.
  intros host n ls mk present made.
  assert (Hcmd : Py.str_join " " ["mkdir"; "-p"; glusterfile._fqpath self]
                 = mk).
  { unfold Py.str_join. simpl. subst mk. simpl. by rewrite str_chars. }
  unfold glusterdir.create, glusterdir.GlusterDir_mkdir, glusterdir.mkdir,
    glusterfile.exists_on_client, glusterfile.file_exists, bind, run, ret.
  cbn [app]. rewrite Hcmd.
  subst present made. fold host ls. fold n. cbn [runs length]. fold n.
  destruct (g_run E n host ls) as [r1 o1]. cbn [fst].
  destruct (r1 =? 0); split; try done. intros _. cbn [negb].
  cbv beta iota. cbn [runs length]. fold n.
  destruct (g_run E (S n) host mk) as [r2 o2]. cbn [fst].
  by destruct (r2 =? 0).
Qed.

(** X13: the hash of a file that has none cached is the library hash of
    its base name as an unsigned 32-bit number: it lies in [0, 2^32), it
    is the library value itself when that is in range, and a negative C
    [int] wraps around by 2^32.  It is kept in the object: the next
    access returns the same number. *)
Theorem calculated_hash_uint32 self :
  glusterfile._calculated_hash self = None ->
  let raw := gf_dm_hashfn E (glusterfile.basename self) in
  let '(self', h) := glusterfile.calculated_hash E self in
  0 <= h < 2 ^ 32 /\
  (0 <= raw < 2 ^ 32 -> h = raw) /\
  (- 2 ^ 31 <= raw < 0 -> h = raw + 2 ^ 32) /\
  glusterfile._calculated_hash self' = Some h /\
  glusterfile.calculated_hash E self' = (self', h).
Proof.
  intros Hnone raw. unfold glusterfile.calculated_hash. rewrite Hnone.
  unfold glusterfile.calculate_hash. fold raw. simpl.
  split; [apply Z.mod_pos_bound; lia|].
  split; [intros Hr; by apply Z.mod_small|].
  split; [|done]. intros Hr.
  rewrite <- (Z.mod_add raw 1 (2 ^ 32)) by lia.
  apply Z.mod_small. lia.
Qed.

End MoveCreate.

(** ** glusterfile.py: what a second resolution costs *)

Section Idempotence.
Context (E : Env).

Lemma hashed_bricks_loop_hash bricks :
  forall self paths s self' bricks' paths' s',
    Forall (fun b => cache_ok b = true) bricks ->
    glusterfile.hashed_bricks_loop E self bricks paths s =
      (Ok (self', bricks', paths'), s') ->
    (glusterfile.calculated_hash E self').2 =
    (glusterfile.calculated_hash E self).2.
Proof.
  induction bricks as [|b bricks IH];
    intros self paths s self' bricks' paths' s' Hok H.
  - simpl in H. by inversion H.
  - simpl in H. inversion Hok as [|? ? Hb Hbs]; subst.
    apply bind_inv_ok in H as ([[self1 b1] paths1] & s1 & Hstep & H).
    apply bind_inv_ok in H as ([[self2 bricks2] paths2] & s2 & Hloop & H).
    inversion H; subst; clear H.
    destruct (hashed_bricks_step_inv E _ _ _ _ _ _ _ _ Hb Hstep)
      as (-> & _).
    rewrite (IH _ _ _ _ _ _ _ Hbs Hloop). by rewrite calculated_hash_idem.
Qed.

(** X14: a second [hashed_bricks] on the object the first one returned
    gives the same list and costs nothing: no command is issued and no
    layout is constructed, whatever the remote side has become. *)
Theorem hashed_bricks_idempotent self s self1 layout s1 self' paths s' :
  glusterfile.parent_dir_layout E self s = (Ok (self1, layout), s1) ->
  Forall (fun b => cache_ok b = true) (layout.brickdirs layout) ->
  glusterfile.hashed_bricks E self s = (Ok (self', paths), s') ->
  forall s2,
    exists self'',
      glusterfile.hashed_bricks E self' s2 = (Ok (self'', paths), s2).
Proof.
  intros Hlay Hok H s2. unfold glusterfile.hashed_bricks in H.
  rewrite (bind_ok _ _ _ _ _ Hlay) in H. cbv beta iota in H.
  apply bind_inv_ok in H as ([[self2 bricks] paths2] & s3 & Hloop & H).
  inversion H; subst self' paths s'; clear H.
  destruct (hashed_bricks_loop_inv E _ _ _ _ _ _ _ _ Hok Hloop)
    as (Hres & _ & -> & _).
  pose proof (hashed_bricks_loop_hash _ _ _ _ _ _ _ _ Hok Hloop) as Hh.
  set (self' := glusterfile.set_parent_dir_layout self2
                  (layout.set_brickdirs layout bricks)).
  assert (Hcached : glusterfile.parent_dir_layout E self' s2 =
                    (Ok (self', layout.set_brickdirs layout bricks), s2))
    by done.
  destruct (hashed_bricks_on_resolved E _ _ _ _ _ Hcached Hres)
    as (self'' & Heq).
  exists self''. rewrite Heq. simpl. do 3 f_equal.
  assert (Hsame : (glusterfile.calculated_hash E self').2 =
                  (glusterfile.calculated_hash E self2).2).
  { unfold glusterfile.calculated_hash. simpl.
    by destruct (glusterfile._calculated_hash self2). }
  by rewrite Hsame, Hh.
Qed.

End Idempotence.

(** ** dht_test_utils.py: what the traversal goes through *)

Section TraversalMore.
Import constants.
Context (E : Env).

(** X15: when [file_type] selects neither directories nor files (links
    alone, for one), [validate_files_in_dir] checks nothing: it returns
    [True] without a command, whatever the tree and the tests selected. *)
Theorem validate_files_in_dir_nothing_selected
    host rootdir file_type test_type s :
  truthy (Z.land file_type (FILETYPE_DIR (k E))) = false ->
  truthy (Z.land file_type (FILETYPE_FILE (k E))) = false ->
  dht_test_utils.validate_files_in_dir E host rootdir file_type test_type s
    = (Ok true, s).
Proof.
  intros Hd Hf. rewrite validate_files_in_dir_eq.
  assert (Hnil : entries_of E host rootdir file_type = []).
  { unfold entries_of. rewrite Hd, Hf.
    induction (os_walk E host rootdir) as [|[[r d] f] l IH]; [done|].
    simpl. exact IH. }
  by rewrite Hnil.
Qed.

(** X17: when the pathinfo attribute of the parent directory of the first
    entry cannot be read, [validate_files_in_dir] ends in a [TypeError]
    after that one command: no layout is constructed and no test is
    run. *)
Theorem validate_files_in_dir_pathinfo_unreadable
    host rootdir file_type test_type s e rest rcode rout :
  entries_of E host rootdir file_type = e :: rest ->
  g_run E (length (runs s)) host (pathinfo_command (entry_parent e)) =
    (rcode, rout) ->
  rcode <> 0 ->
  dht_test_utils.validate_files_in_dir E host rootdir file_type test_type s
    = (Raise TypeError,
       after_run s host (pathinfo_command (entry_parent e))).
Proof.
  intros Hent Hrun Hrc. rewrite validate_files_in_dir_eq, Hent.
  apply bind_raise. rewrite check_entries_cons. apply bind_raise.
  destruct e as [root name]. cbn [fst snd].
  unfold dht_test_utils.check_entry. cbv zeta.
  change (glusterfile.parent_dir
            (glusterfile.__init__ host (Py.join root name)))
    with (entry_parent (root, name)).
  rewrite lookup_empty. apply bind_raise. apply bind_raise.
  unfold glusterfile.parent_dir_pathinfo.
  change (glusterfile.parent_dir
            (glusterfile.__init__ host (Py.join root name)))
    with (entry_parent (root, name)).
  change (glusterfile._host (glusterfile.__init__ host (Py.join root name)))
    with host.
  rewrite get_pathinfo_eq, Hrun. apply Z.eqb_neq in Hrc. by rewrite Hrc.
Qed.

End TraversalMore.

(** ** The key of the layout cache *)

Section CacheKey.
Import Py.

Lemma match_slash {A} (c : ascii) (X Y : A) :
  match c with
  | "/"%char => X
  | _ => Y
  end = if Ascii.eqb c "/" then X else Y.
Proof. destruct c as [[] [] [] [] [] [] [] []]; reflexivity. Qed.

(** [os.path.join] on its two cases. *)
Lemma join_cases a b :
  join a b =
    match chars b with
    | c :: _ =>
        if Ascii.eqb c "/" then b
        else match rev (chars a) with
             | [] => b
             | d :: _ => if Ascii.eqb d "/" then a +:+ b else a +:+ "/" +:+ b
             end
    | [] =>
        match rev (chars a) with
        | [] => b
        | d :: _ => if Ascii.eqb d "/" then a +:+ b else a +:+ "/" +:+ b
        end
    end.
Proof.
  unfold join.
  assert (Hin : match rev (chars a) with
                | [] => b
                | "/"%char :: _ => a +:+ b
                | _ => a +:+ "/" +:+ b
                end =
                match rev (chars a) with
                | [] => b
                | d :: _ =>
                    if Ascii.eqb d "/" then a +:+ b else a +:+ "/" +:+ b
                end).
  { destruct (rev (chars a)) as [|d l]; [done|]. apply match_slash. }
  rewrite <- Hin. destruct (chars b) as [|c l]; [done|]. apply match_slash.
Qed.

Lemma span_no_slash_free (l : list ascii) :
  "/"%char ∉ l -> span_no_slash l = (l, []).
Proof.
  induction l as [|c l IH]; [done|]. rewrite not_elem_of_cons.
  intros [Hc Hl]. simpl.
  destruct (Ascii.eqb_spec c "/") as [->|_]; [done|]. by rewrite IH.
Qed.

Lemma span_no_slash_app (l rest : list ascii) :
  "/"%char ∉ l -> span_no_slash (l ++ "/"%char :: rest) = (l, "/"%char :: rest).
Proof.
  induction l as [|c l IH]; [done|]. rewrite not_elem_of_cons.
  intros [Hc Hl]. simpl.
  destruct (Ascii.eqb_spec c "/") as [->|_]; [done|]. by rewrite IH.
Qed.

Lemma count_char_zero c s : count_char c s = 0%nat -> c ∉ chars s.
Proof.
  unfold count_char. induction (chars s) as [|a l IH]; intros H.
  - apply not_elem_of_nil.
  - rewrite filter_cons in H. case_decide; [done|].
    rewrite not_elem_of_cons. split; [congruence|by apply IH].
Qed.

(** The text before the last slash of [join root name] depends on [root]
    alone when the name holds no slash. *)
Lemma join_head root name :
  count_char "/" name = 0%nat ->
  (span_no_slash (rev (chars (join root name)))).2 = sibling_head root.
Proof.
  intros Hn. apply count_char_zero in Hn.
  assert (Hrev : "/"%char ∉ rev (chars name)) by by rewrite elem_of_rev.
  assert (Hj : join root name =
               match rev (chars root) with
               | [] => name
               | d :: _ =>
                   if Ascii.eqb d "/" then root +:+ name
                   else root +:+ "/" +:+ name
               end).
  { rewrite join_cases. destruct (chars name) as [|c l] eqn:Hc; [done|].
    destruct (Ascii.eqb_spec c "/") as [->|_]; [|done].
    destruct Hn. by left. }
  rewrite Hj. unfold sibling_head.
  destruct (rev (chars root)) as [|d l] eqn:Hroot.
  - by rewrite span_no_slash_free.
  - destruct (Ascii.eqb_spec d "/") as [->|Hd].
    + rewrite chars_app, rev_app_distr, Hroot.
      by rewrite span_no_slash_app.
    + rewrite !chars_app, !rev_app_distr, Hroot. simpl.
      rewrite <- app_assoc. simpl. by rewrite span_no_slash_app.
Qed.

(** X16: the entries of one walked directory whose names hold no slash
    have the same parent directory, so they share one key of the layout
    cache; that key is the walked directory itself when its path does not
    end in a slash. *)
Theorem entry_parent_siblings root name1 name2 :
  count_char "/" name1 = 0%nat ->
  count_char "/" name2 = 0%nat ->
  entry_parent (root, name1) = entry_parent (root, name2) /\
  (forall d l, rev (chars root) = d :: l -> d <> "/"%char ->
     entry_parent (root, name1) = root).
Proof.
  intros H1 H2. unfold entry_parent, dirname. cbn [fst snd].
  rewrite !join_head by done. split; [done|].
  intros d l Hroot Hd. unfold sibling_head. rewrite Hroot.
  apply Ascii.eqb_neq in Hd. rewrite Hd. simpl. rewrite Hd. simpl.
  rewrite <- (str_chars root). f_equal.
  rewrite <- (rev_involutive (chars root)), Hroot. done.
Qed.

End CacheKey.

(** ** glusterfile.py: checksums per brick *)

Section Checksums.
Context (G : Glusto).

Lemma split_two_one_colon p a b :
  Py.split ":" p = [a; b] -> count_char ":" p = 1%nat.
Proof.
  intros Hsp. destruct (decide (count_char ":" p = 1%nat)) as [|Hne];
    [done|].
  destruct (split_colon_spec p) as [_ Hother]. by destruct (Hother Hne a b).
Qed.

Lemma md5_loop paths :
  forall (m0 : gmap string (option string)) s m s',
    for_each
      (fun file_md5s brickdir_path =>
         bind (unpack2 (Py.split ":" brickdir_path))
           (fun x => let '(host, fqpath) := x in
              bind (glusterfile.get_md5sum G host fqpath)
                (fun md5 => ret (<[brickdir_path := md5]> file_md5s))))
      paths m0 s = (Ok m, s') ->
    (forall p, is_Some (m !! p) <-> is_Some (m0 !! p) \/ p ∈ paths) /\
    Forall (fun p => count_char ":" p = 1%nat) paths.
Proof.
  induction paths as [|q paths IH]; intros m0 s m s' H.
  - inversion H; subst. split; [|done]. intros p. rewrite elem_of_nil. tauto.
  - cbn [for_each] in H.
    apply bind_inv_ok in H as (m1 & s1 & Hstep & Hrest).
    apply bind_inv_ok in Hstep as ([host fqpath] & s2 & Hun & Hstep).
    apply unpack2_inv in Hun as [Hsp ->].
    apply bind_inv_ok in Hstep as (md5 & s3 & _ & Hstep).
    inversion Hstep; subst m1 s3; clear Hstep.
    destruct (IH _ _ _ _ Hrest) as [Hdom Hwf]. split.
    + intros p. rewrite Hdom, elem_of_cons.
      destruct (decide (p = q)) as [->|Hne].
      * rewrite lookup_insert_eq. split; eauto.
      * rewrite lookup_insert_ne by done. tauto.
    + constructor; [|done]. by eapply split_two_one_colon.
Qed.

(** X18: when [md5sum_on_bricks] returns, its dictionary has an entry for
    exactly the brick paths of the pathinfo attribute, one per distinct
    path, and every one of these paths holds exactly one colon (the call
    does not return on a path with another number of colons). *)
Theorem md5sum_on_bricks_keys self s self' m s' :
  glusterfile.md5sum_on_bricks G self s = (Ok (self', m), s') ->
  exists pi,
    glusterfile.pathinfo G self s =
      (Ok (self', pi),
       after_run s (glusterfile._host self)
         (pathinfo_command (glusterfile._fqpath self))) /\
    (forall p, is_Some (m !! p) <-> p ∈ brickdir_paths pi) /\
    Forall (fun p => count_char ":" p = 1%nat) (brickdir_paths pi) /\
    (map_size m <= length (brickdir_paths pi))%nat.
Proof.
  intros H. unfold glusterfile.md5sum_on_bricks in H.
  apply bind_inv_ok in H as ([self1 pi] & s1 & Hpi & H).
  apply bind_inv_ok in H as (m1 & s2 & Hloop & H).
  inversion H; subst self1 m1 s2; clear H.
  exists pi. split.
  - pose proof Hpi as Hpi'. unfold glusterfile.pathinfo in Hpi'.
    apply bind_inv_ok in Hpi' as (pi0 & s3 & Hget & Hret).
    rewrite get_pathinfo_eq in Hget. injection Hget as _ <-.
    injection Hret as <- <- <-. exact Hpi.
  - destruct (md5_loop _ _ _ _ _ Hloop) as [Hdom Hwf].
    split; [|split; [done|]].
    + intros p. rewrite Hdom, lookup_empty. split; [|eauto].
      intros [[? ?]|?]; done.
    + assert (Hsub : dom m ⊆ list_to_set (brickdir_paths pi)).
      { intros p. rewrite elem_of_dom, elem_of_list_to_set, Hdom,
          lookup_empty. intros [[? ?]|?]; done. }
      change (map_size m) with (size m).
      rewrite <- (size_dom (D := gset string)).
      etrans; [apply (subseteq_size _ _ Hsub)|].
      clear. induction (brickdir_paths pi) as [|q l IH].
      * change (list_to_set []) with (∅ : gset string).
        by rewrite size_empty.
      * change (list_to_set (q :: l))
          with ({[q]} ∪ list_to_set l : gset string).
        rewrite size_union_alt, size_singleton.
        apply le_n_S. etrans; [|exact IH].
        apply subseteq_size. intros x. rewrite elem_of_difference. tauto.
Qed.

End Checksums.

(** * The properties on concrete inputs *)

Section Concrete.
Import Examples.

(** C1 at the boundary: the only brick directory owns the range from 0 to
    100 and the name hashes to 100; the list of hashed bricks is empty. *)
Lemma hashed_bricks_strict_interval_witness :
  glusterfile.parent_dir_layout (E_const 0 "" 100) (file_in layout_one_brick)
    s0 = (Ok (file_in layout_one_brick, layout_one_brick), s0) /\
  Forall (fun b => cache_ok b = true) (layout.brickdirs layout_one_brick) /\
  exists self',
    glusterfile.hashed_bricks (E_const 0 "" 100) (file_in layout_one_brick)
      s0 = (Ok (self', []), s0).
Proof.
  split; [reflexivity|]. split; [by repeat constructor|].
  apply (hashed_bricks_strict_interval (E_const 0 "" 100)
           (file_in layout_one_brick) s0 (file_in layout_one_brick)
           layout_one_brick s0 eq_refl);
    by repeat constructor.
Defined.

(** C2 fails on the code: the attribute value [abcd] has four hex
    characters, and [get_hashrange] returns a pair decoded from them. *)
Lemma get_hashrange_short_value_decoded :
  (length (Py.chars "abcd") < 16)%nat /\
  (brickdir.get_hashrange (G_const 0 "abcd" 0) "h:/b" s0).1 =
    Ok (Some (43981, 43981)).
Proof. split; [simpl; lia|reflexivity]. Qed.

Lemma get_hashrange_no_length_check_witness :
  Py.split ":" "h:/b" = ["h"; "/b"] /\
  g_run (G_const 0 "abcd" 0) (length (runs s0)) "h"
    (brickdir.hashrange_command "/b") = (0, "abcd") /\
  brickdir.get_hashrange (G_const 0 "abcd" 0) "h:/b" s0 =
    (Ok (Some (43981, 43981)),
     after_run s0 "h" (brickdir.hashrange_command "/b")).
Proof.
  split; [reflexivity|]. split; [reflexivity|].
  apply (get_hashrange_no_length_check (G_const 0 "abcd" 0) "h:/b" "h" "/b"
           "abcd" s0 eq_refl eq_refl).
  - simpl. lia.
  - by repeat constructor.
Defined.

(** C3 fails on the code: one directory with one file, every check
    selected; the call returns and two layouts were constructed for the
    one parent directory. *)
Lemma validate_files_in_dir_two_layouts :
  (dht_test_utils.validate_files_in_dir
     (E_mnt ["a"] 50 (layout_empty true true)) "client" "/mnt" 255 255 s0).1
    = Ok true /\
  count_event (EvLayout "/mnt")
    (trace (dht_test_utils.validate_files_in_dir
              (E_mnt ["a"] 50 (layout_empty true true))
              "client" "/mnt" 255 255 s0).2) = 2%nat.
Proof. split; vm_compute; reflexivity. Qed.

Lemma validate_files_in_dir_layout_cache_witness :
  dht_test_utils.validate_files_in_dir
    (E_mnt ["a"; "b"] 50 (layout_empty true true)) "client" "/mnt" 255 255 s0
  = (Ok true,
     {| runs := replicate 3
                  ("client",
                   "getfattr --absolute-names --only-values -n "
                   +:+ "'trusted.glusterfs.pathinfo' /mnt");
        trace := [EvLayout "/mnt"; EvLayout "/mnt"; EvLayoutTests "/mnt";
                  EvLayout "/mnt"] |}) /\
  exists new,
    [EvLayout "/mnt"; EvLayout "/mnt"; EvLayoutTests "/mnt"; EvLayout "/mnt"]
      = new ++ [] /\
    count_event (EvLayoutTests "/mnt") new = 1%nat /\
    count_event (EvLayout "/mnt") new = 3%nat.
Proof.
  split; [vm_compute; reflexivity|].
  destruct (validate_files_in_dir_layout_cache
              (E_mnt ["a"; "b"] 50 (layout_empty true true))
              "client" "/mnt" 255 255 s0) as [_ Hexact].
  destruct (Hexact true _ eq_refl)
    as (new & Htr & Hcount).
  exists new. split; [exact Htr|].
  destruct (Hcount "/mnt") as (H1 & _ & Hl).
  assert (Hin : "/mnt" ∈ entry_parent <$>
                  entries_of (E_mnt ["a"; "b"] 50 (layout_empty true true))
                    "client" "/mnt" 255) by (vm_compute; by left).
  split; [exact (H1 Hin)|]. rewrite Hl, (H1 Hin). reflexivity.
Defined.

(** C4 fails on the code: two files are absent from their hashed brick;
    with every check selected the call raises for the first one, in the
    state the check of the first one left, and the second violation is in
    no report. *)
Lemma validate_files_in_dir_first_violation_only :
  (dht_test_utils.validate_files_in_dir
     (E_mnt ["a"; "b"] 50 layout_one_brick) "client" "/mnt" 255 255 s0).1 =
  Raise (FileDoesNotExistOnHashedBricks
           "File/Dir /mnt/a DOES NOT EXIST on hashed bricks.") /\
  (dht_test_utils.validate_files_in_dir
     (E_mnt ["a"; "b"] 50 layout_one_brick) "client" "/mnt" 255 255 s0).2 =
  (dht_test_utils.check_entry (E_mnt ["a"; "b"] 50 layout_one_brick)
     "client" 255 "/mnt" ∅ "a" s0).2 /\
  (dht_test_utils.check_entry (E_mnt ["a"; "b"] 50 layout_one_brick)
     "client" 255 "/mnt" ∅ "b" s0).1 =
  Raise (FileDoesNotExistOnHashedBricks
           "File/Dir /mnt/b DOES NOT EXIST on hashed bricks.").
Proof. repeat split; vm_compute; reflexivity. Qed.

(** C5 fails on the code: a layout with a hole and a layout with an
    overlap raise the same exception, whose only content is the message
    with the path. *)
Lemma run_layout_tests_message_only :
  layout.holes layout_hole <> layout.holes layout_overlap /\
  layout.overlaps layout_hole <> layout.overlaps layout_overlap /\
  dht_test_utils.run_layout_tests (E_const 0 "" 0) "/mnt" layout_hole 1 s0 =
  dht_test_utils.run_layout_tests (E_const 0 "" 0) "/mnt" layout_overlap 1 s0
  /\
  (dht_test_utils.run_layout_tests (E_const 0 "" 0) "/mnt" layout_hole 1 s0).1
  = Raise (LayoutIsNotCompleteException "Layout for /mnt IS NOT COMPLETE").
Proof. repeat split; done. Qed.

(** C6 on the attribute of a brick directory that owns the first third of
    the hash space, printed with a newline after it. *)
Lemma get_hashrange_trailing16_witness :
  Py.split ":" "h:/b" = ["h"; "/b"] /\
  g_run (G_const 0 dht_xattr_line 0) (length (runs s0)) "h"
    (brickdir.hashrange_command "/b") = (0, dht_xattr_line) /\
  Py.chars (Py.strip dht_xattr_line) =
    Py.chars "0x0000000100000000" ++ Py.chars "0000000055555554" /\
  length (Py.chars "0000000055555554") = 16%nat /\
  all_hex (Py.chars "0000000055555554") /\
  brickdir.get_hashrange (G_const 0 dht_xattr_line 0) "h:/b" s0 =
    (Ok (Some (0, 1431655764)),
     after_run s0 "h" (brickdir.hashrange_command "/b")).
Proof.
  assert (Hhex : all_hex (Py.chars "0000000055555554"))
    by (by repeat constructor).
  repeat (split; [first [reflexivity | exact Hhex]|]).
  apply (get_hashrange_trailing16 (G_const 0 dht_xattr_line 0) "h:/b" "h"
           "/b" dht_xattr_line (Py.chars "0x0000000100000000")
           (Py.chars "0000000055555554") s0 eq_refl eq_refl eq_refl eq_refl
           Hhex).
Defined.

(** C7 fails on the code: when the command fails, [get_hashrange] returns
    [None] without raising, and the access through the brick directory
    ends in a [TypeError]. *)
Lemma get_hashrange_failed_command_outcome :
  (brickdir.get_hashrange (G_const 1 "" 0) "h:/b" s0).1 = Ok None /\
  (brickdir.hashrange (G_const 1 "" 0) brick_b s0).1 = Raise TypeError.
Proof. split; reflexivity. Qed.

Lemma get_hashrange_command_failed_witness :
  Py.split ":" "h:/b" = ["h"; "/b"] /\
  g_run (G_const 1 "" 0) (length (runs s0)) "h"
    (brickdir.hashrange_command "/b") = (1, "") /\
  1 <> 0 /\
  brickdir.get_hashrange (G_const 1 "" 0) "h:/b" s0 =
    (Ok None, after_run s0 "h" (brickdir.hashrange_command "/b")).
Proof.
  split; [reflexivity|]. split; [reflexivity|]. split; [done|].
  apply (get_hashrange_command_failed (G_const 1 "" 0) "h:/b" "h" "/b" 1 ""
           s0 eq_refl eq_refl).
  done.
Defined.

(** C8 on a remote side that changes: the first access fetches the first
    range, a later access returns it again although the attribute has
    changed, and a resync fetches the new one. *)
Lemma hashrange_fetched_once_witness :
  brickdir._hashrange brick_b = None /\
  brickdir.get_hashrange G_changing (brickdir._path brick_b) s0 =
    (Ok (Some (0, 1431655764)),
     after_run s0 "h" (brickdir.hashrange_command "/b")) /\
  let s1 := after_run s0 "h" (brickdir.hashrange_command "/b") in
  brickdir.hashrange G_changing brick_b s0 =
    (Ok (cached_brick brick_b 0 1431655764,
         (Some 0, Some 1431655764)), s1) /\
  brickdir.hashrange G_changing (cached_brick brick_b 0 1431655764) s1 =
    (Ok (cached_brick brick_b 0 1431655764,
         (Some 0, Some 1431655764)), s1) /\
  brickdir.resync_hashrange G_changing (cached_brick brick_b 0 1431655764) s1
    = (Ok (cached_brick brick_b 1431655765 2863311529),
       after_run s1 "h" (brickdir.hashrange_command "/b")).
Proof.
  split; [reflexivity|]. split; [reflexivity|]. intros s1.
  destruct (hashrange_fetched_once G_changing brick_b s0 0 1431655764 s1
              eq_refl eq_refl) as (Hfirst & _ & Hlater & Hresync).
  split; [exact Hfirst|]. split; [apply Hlater|].
  apply (Hresync s1 1431655765 2863311529). reflexivity.
Defined.

(** C9 at a boundary: the range is from 0 to 100 and the hash is 100;
    [hashrange_contains_hash] holds, [hashed_bricks] lists nothing. *)
Lemma hashrange_contains_hash_inclusive_witness :
  is_resolved brick_0_100 = true /\
  brickdir.hashrange_contains_hash (E_const 0 "" 100) brick_0_100 100 s0 =
    (Ok (brick_0_100, true), s0) /\
  exists self',
    glusterfile.hashed_bricks (E_const 0 "" 100) (file_in layout_one_brick)
      s0 = (Ok (self', []), s0).
Proof.
  split; [reflexivity|].
  destruct (hashrange_contains_hash_inclusive (E_const 0 "" 100)
              brick_0_100 100 s0 eq_refl) as (Hc & _ & Hh & _).
  split; [exact Hc|].
  apply (Hh (file_in layout_one_brick) layout_one_brick); reflexivity.
Defined.

(** C10 for the same file: no owner, so the existence test holds and the
    check returns. *)
Lemma exists_on_hashed_bricks_vacuous_witness :
  exists self',
    glusterfile.hashed_bricks (E_const 0 "" 100) (file_in layout_one_brick)
      s0 = (Ok (self', []), s0) /\
    glusterfile.exists_on_hashed_bricks (E_const 0 "" 100)
      (file_in layout_one_brick) s0 = (Ok (self', true), s0) /\
    dht_test_utils.run_hashed_bricks_test (E_const 0 "" 100)
      (file_in layout_one_brick) s0 = (Ok (self', true), s0).
Proof.
  eexists. split; [reflexivity|].
  apply (exists_on_hashed_bricks_vacuous (E_const 0 "" 100)
           (file_in layout_one_brick) s0 _ s0 eq_refl).
Defined.

End Concrete.

(** * Further properties on concrete inputs *)

Section ConcreteMore.
Import Examples.

(** X4 on a fresh brick directory: one command, then a range that is not
    the zero range. *)
Lemma has_zero_hashrange_spec_witness :
  cache_ok brick_b = true /\
  exists b',
    brickdir.has_zero_hashrange (G_const 0 dht_xattr 0) brick_b s0 =
      (Ok (b', false),
       after_run s0 "h" (brickdir.hashrange_command "/b")) /\
    is_resolved b' = true /\
    brickdir._path b' = "h:/b".
Proof.
  split; [reflexivity|]. eexists. split; [reflexivity|].
  destruct (has_zero_hashrange_spec (G_const 0 dht_xattr 0) brick_b s0
              _ false _ eq_refl eq_refl) as (Hr & Hp & _).
  split; [exact Hr|exact Hp].
Defined.


(** X6 for the same file: the check raises, after the probe. *)
Lemma run_hashed_bricks_test_outcome_witness :
  exists self',
    glusterfile.hashed_bricks (E_mnt ["a"] 50 layout_one_brick)
      (file_in layout_one_brick) s0 = (Ok (self', ["h:/b"]), s0) /\
    host_paths ["h:/b"] [("h", "/b")] /\
    dht_test_utils.run_hashed_bricks_test (E_mnt ["a"] 50 layout_one_brick)
      (file_in layout_one_brick) s0 =
      (Raise (FileDoesNotExistOnHashedBricks
                "File/Dir /mnt/a DOES NOT EXIST on hashed bricks."),
       after_run s0 "h" "ls -ld /b").
Proof.
  eexists. split; [reflexivity|]. split; [repeat constructor|].
  exact (run_hashed_bricks_test_outcome
           (E_mnt ["a"] 50 layout_one_brick) (file_in layout_one_brick)
           s0 _ ["h:/b"] s0 [("h", "/b")] eq_refl
           ltac:(repeat constructor)).
Defined.

(** X7 with two bricks: the first probe fails and the second one is
    issued all the same. *)
Lemma exists_on_bricks_refetches_witness :
  g_run G_two_bricks 0 "client" (pathinfo_command "/mnt/a") = (0, "out") /\
  host_paths ["h1:/b1"; "h2:/b2"] [("h1", "/b1"); ("h2", "/b2")] /\
  glusterfile.exists_on_bricks G_two_bricks file_a s0 =
    (Ok (glusterfile.set_pathinfo file_a (pathinfo_of G_two_bricks "out"),
         false),
     {| runs := [("h2", "ls -ld /b2"); ("h1", "ls -ld /b1");
                 ("client", pathinfo_command "/mnt/a")];
        trace := [] |}).
Proof.
  split; [reflexivity|]. split; [repeat constructor|].
  destruct (exists_on_bricks_refetches G_two_bricks file_a s0 "out"
              [("h1", "/b1"); ("h2", "/b2")] eq_refl
              ltac:(repeat constructor)) as [H _].
  exact H.
Defined.

(** X8 when [df] works: the mount point is kept. *)
Lemma mountpoint_cached_on_success_witness :
  glusterfile._mountpoint file_a = None /\
  g_run (G_const 0 "/mnt" 0) 0 "client" (mountpoint_command "/mnt/a") =
    (0, "/mnt") /\
  glusterfile.mountpoint (G_const 0 "/mnt" 0) file_a s0 =
    (Ok (glusterfile.set_mountpoint file_a (Some "/mnt"), Some "/mnt"),
     after_run s0 "client" (mountpoint_command "/mnt/a")) /\
  glusterfile.mountpoint (G_const 0 "/mnt" 0)
    (glusterfile.set_mountpoint file_a (Some "/mnt")) s_one =
    (Ok (glusterfile.set_mountpoint file_a (Some "/mnt"), Some "/mnt"),
     s_one).
Proof.
  split; [reflexivity|]. split; [reflexivity|].
  destruct (mountpoint_cached_on_success (G_const 0 "/mnt" 0) file_a s0
              0 "/mnt" eq_refl eq_refl) as [Hok _].
  destruct (Hok eq_refl) as [H1 H2].
  split; [exact H1|exact (H2 s_one)].
Defined.

(** X9 on an output of ten fields. *)
Lemma get_file_stat_fields_witness :
  g_run (G_const 0 stat_out 0) 0 "client" (stat_command "/mnt/a") =
    (0, stat_out) /\
  exists d : gmap string string,
    glusterfile.get_file_stat (G_const 0 stat_out 0) "client" "/mnt/a" s0 =
      (Ok (Some d), after_run s0 "client" (stat_command "/mnt/a")) /\
    map_size d = 10%nat.
Proof.
  split; [reflexivity|].
  destruct (get_file_stat_fields (G_const 0 stat_out 0) "client" "/mnt/a"
              s0 0 stat_out eq_refl) as (_ & _ & Hok).
  destruct (Hok eq_refl eq_refl)
    as (d & ? & ? & ? & ? & ? & ? & ? & ? & ? & ? & Hd & H).
  exists d. split; [exact Hd|].
  apply H.
Defined.

(** X13 when the library returns the C [int] -1. *)
Lemma calculated_hash_uint32_witness :
  glusterfile._calculated_hash file_a = None /\
  (glusterfile.calculated_hash (E_const 0 "" (-1)) file_a).2 = 4294967295.
Proof.
  split; [reflexivity|].
  pose proof (calculated_hash_uint32 (E_const 0 "" (-1)) file_a eq_refl)
    as H.
  cbv zeta in H.
  destruct (glusterfile.calculated_hash (E_const 0 "" (-1)) file_a)
    as [self' h].
  destruct H as (_ & _ & Hneg & _).
  change (h = -1 + 2 ^ 32). apply Hneg.
  change (- 2 ^ 31 <= -1 < 0). lia.
Defined.

(** X14 for a file with a known layout: the second call is on a log with
    an earlier command, which it leaves as it is. *)
Lemma hashed_bricks_idempotent_witness :
  exists self',
    glusterfile.parent_dir_layout (E_const 0 "" 50)
      (file_in layout_one_brick) s0 =
      (Ok (file_in layout_one_brick, layout_one_brick), s0) /\
    Forall (fun b => cache_ok b = true)
      (layout.brickdirs layout_one_brick) /\
    glusterfile.hashed_bricks (E_const 0 "" 50) (file_in layout_one_brick)
      s0 = (Ok (self', ["h:/b"]), s0) /\
    exists self'',
      glusterfile.hashed_bricks (E_const 0 "" 50) self' s_one =
        (Ok (self'', ["h:/b"]), s_one).
Proof.
  eexists. split; [reflexivity|]. split; [repeat constructor|].
  split; [reflexivity|].
  exact (hashed_bricks_idempotent (E_const 0 "" 50)
           (file_in layout_one_brick) s0 _ layout_one_brick s0 _ ["h:/b"]
           s0 eq_refl ltac:(repeat constructor) eq_refl s_one).
Defined.

(** X15 with a file type that selects links alone. *)
Lemma validate_files_in_dir_nothing_selected_witness :
  truthy (Z.land 4 (constants.FILETYPE_DIR k0)) = false /\
  truthy (Z.land 4 (constants.FILETYPE_FILE k0)) = false /\
  dht_test_utils.validate_files_in_dir (E_mnt ["a"] 50 layout_hole)
    "client" "/mnt" 4 255 s0 = (Ok true, s0).
Proof.
  split; [reflexivity|]. split; [reflexivity|].
  exact (validate_files_in_dir_nothing_selected
           (E_mnt ["a"] 50 layout_hole) "client" "/mnt" 4 255 s0
           eq_refl eq_refl).
Defined.

(** X16 for two files of [/mnt]. *)
Lemma entry_parent_siblings_witness :
  count_char "/" "a" = 0%nat /\
  count_char "/" "b" = 0%nat /\
  entry_parent ("/mnt", "a") = entry_parent ("/mnt", "b") /\
  entry_parent ("/mnt", "a") = "/mnt".
Proof.
  split; [reflexivity|]. split; [reflexivity|].
  destruct (entry_parent_siblings "/mnt" "a" "b" eq_refl eq_refl)
    as [Hsame Hroot].
  split; [exact Hsame|].
  apply (Hroot "t"%char ["n"; "m"; "/"]%char); [reflexivity|discriminate].
Defined.

(** X17 when every command fails. *)
Lemma validate_files_in_dir_pathinfo_unreadable_witness :
  entries_of E_down "client" "/mnt" 255 = [("/mnt", "a")] /\
  g_run E_down 0 "client" (pathinfo_command "/mnt") = (1, "") /\
  1 <> 0 /\
  dht_test_utils.validate_files_in_dir E_down "client" "/mnt" 255 255 s0 =
    (Raise TypeError, after_run s0 "client" (pathinfo_command "/mnt")).
Proof.
  split; [reflexivity|]. split; [reflexivity|]. split; [discriminate|].
  exact (validate_files_in_dir_pathinfo_unreadable E_down "client" "/mnt"
           255 255 s0 ("/mnt", "a") [] 1 "" eq_refl eq_refl
           ltac:(discriminate)).
Defined.

(** X18 with two bricks: two entries. *)
Lemma md5sum_on_bricks_keys_witness :
  exists self' m s',
    glusterfile.md5sum_on_bricks G_two_bricks file_a s0 =
      (Ok (self', m), s') /\
    (forall p, is_Some (m !! p) <-> p ∈ ["h1:/b1"; "h2:/b2"]) /\
    (map_size m <= 2)%nat.
Proof.
  destruct (glusterfile.md5sum_on_bricks G_two_bricks file_a s0)
    as [[[self' m]|e] s'] eqn:H.
  - exists self', m, s'. split; [reflexivity|].
    destruct (md5sum_on_bricks_keys G_two_bricks file_a s0 self' m s' H)
      as (pi & Hpi & Hdom & _ & Hsize).
    injection Hpi as _ <-. split; [exact Hdom|exact Hsize].
  - exfalso. vm_compute in H. discriminate H.
Defined.

End ConcreteMore.
